(** * spytft / ili9328: a shallow embedding of the ILI9328 SPI driver

  The development follows [src/spytft/ili9328.py].  Python integers are
  [Z]; numpy [uint8] arithmetic is [Z] arithmetic with the wrap-around
  modulo 256 written out; the instance attributes of [Ili9328Spi] are a
  record; every call into the operating system (spidev, the SysFs GPIO
  files, [time.sleep]) is an event of a trace, produced in a small
  writer/exception monad whose fault schedule says which of the
  operating-system calls raise [OSError]. *)

From stdpp Require Import base numbers list strings gmap.
From Stdlib Require Import ZArith Lia.

Local Open Scope Z_scope.

(** ** numpy [uint8] arithmetic *)

Module Numpy.

(** [astype(np.uint8)] and every [uint8] result keep the low 8 bits. *)
Definition uint8 (z : Z) : Z := z mod 256.

(** [a >> n], [a << n], [a | b], [a & b] on [uint8] operands. *)
Definition rshift (a n : Z) : Z := uint8 (Z.shiftr a n).
Definition lshift (a n : Z) : Z := uint8 (Z.shiftl a n).
Definition bor (a b : Z) : Z := uint8 (Z.lor a b).
Definition band (a b : Z) : Z := uint8 (Z.land a b).

(** A two-dimensional array of [uint8] (one colour plane) and the
    element-wise lifting of the operators to it. *)
Definition plane := list (list Z).

Definition map1 (f : Z -> Z) (p : plane) : plane := map (map f) p.

Fixpoint zip_row (f : Z -> Z -> Z) (r1 r2 : list Z) : list Z :=
  match r1, r2 with
  | a :: r1', b :: r2' => f a b :: zip_row f r1' r2'
  | _, _ => []
  end.

Fixpoint map2 (f : Z -> Z -> Z) (p1 p2 : plane) : plane :=
  match p1, p2 with
  | r1 :: p1', r2 :: p2' => zip_row f r1 r2 :: map2 f p1' p2'
  | _, _ => []
  end.

(** [np.insert(a, 0, v)] without an axis: [a] is flattened in row-major
    (C) order and [v] is put in front. *)
Definition insert0 (a : list (list (list Z))) (v : Z) : list Z :=
  v :: concat (concat a).

End Numpy.

(** ** The image handed to the driver *)

(** One element of [np.array(pil_image)] for an RGB image. *)
Record rgb : Type := Rgb { chan0 : Z; chan1 : Z; chan2 : Z }.

(** [np.array(pil_image)]: the shape (the third component, 3, is not used by
  the driver) and the rows of pixels. *)
Record ndarray : Type := NdArray {
shape_height : nat;
shape_width : nat;
rows : list (list rgb)
}.

Definition byte_range (z : Z) : Prop := 0 <= z < 256.

Definition rgb_ok (p : rgb) : Prop :=
byte_range (chan0 p) /\ byte_range (chan1 p) /\ byte_range (chan2 p).

(** What numpy guarantees of the array of an 8-bit RGB image. *)
Definition ndarray_ok (a : ndarray) : Prop :=
length (rows a) = shape_height a /\
Forall (fun r => length r = shape_width a /\ Forall rgb_ok r) (rows a).

(** ** Pixel conversion, lines 112-130 of [block_image] *)

Module Convert.
Import Numpy.

(** [rgb888[:, :, k]] *)
Definition channel (k : rgb -> Z) (a : ndarray) : plane :=
  map (map k) (rows a).

(** [red = (rgb888[:, :, 0] >> 3).astype(np.uint8)] and its siblings. *)
Definition red (a : ndarray) : plane :=
  map1 uint8 (map1 (fun v => rshift v 3) (channel chan0 a)).
Definition green (a : ndarray) : plane :=
  map1 uint8 (map1 (fun v => rshift v 2) (channel chan1 a)).
Definition blue (a : ndarray) : plane :=
  map1 uint8 (map1 (fun v => rshift v 3) (channel chan2 a)).

(** [rgb565[:, :, 0] = (red << 3) | (green >> 3)] *)
Definition plane0 (a : ndarray) : plane :=
  map2 bor (map1 (fun v => lshift v 3) (red a))
           (map1 (fun v => rshift v 3) (green a)).

(** [rgb565[:, :, 1] = (blue) | ((green & 0x07) << 5)] *)
Definition plane1 (a : ndarray) : plane :=
  map2 bor (blue a)
           (map1 (fun v => lshift v 5) (map1 (fun v => band v 7) (green a))).

(** The [height x width x 2] array [rgb565] once both planes are stored. *)
Fixpoint pair_row (r0 r1 : list Z) : list (list Z) :=
  match r0, r1 with
  | a :: r0', b :: r1' => [a; b] :: pair_row r0' r1'
  | _, _ => []
  end.

Fixpoint pair_planes (p0 p1 : plane) : list (list (list Z)) :=
  match p0, p1 with
  | r0 :: p0', r1 :: p1' => pair_row r0 r1 :: pair_planes p0' p1'
  | _, _ => []
  end.

Definition rgb565 (a : ndarray) : list (list (list Z)) :=
  pair_planes (plane0 a) (plane1 a).

(** The same computation read off for a single pixel. *)
Definition byte0 (p : rgb) : Z :=
  bor (lshift (uint8 (rshift (chan0 p) 3)) 3)
      (rshift (uint8 (rshift (chan1 p) 2)) 3).

Definition byte1 (p : rgb) : Z :=
  bor (uint8 (rshift (chan2 p) 3))
      (lshift (band (uint8 (rshift (chan1 p) 2)) 7) 5).

Definition pack (p : rgb) : list Z := [byte0 p; byte1 p].

End Convert.

(** *** Reading the conversion

    The next definitions are not code of the driver; the statements about
    the conversion are written with them. *)

(** Reading a packed pixel back: the top five bits of the first byte, the
    six bits that straddle the two bytes, the low five bits of the second
    byte. *)
Definition decode565 (px : list Z) : option (Z * Z * Z) :=
  match px with
  | [b0; b1] =>
      Some (Z.shiftr b0 3,
            Z.lor (Z.shiftl (Z.land b0 0x07) 3) (Z.shiftr b1 5),
            Z.land b1 0x1F)
  | _ => None
  end.

(** The channels cut down to 5, 6 and 5 bits. *)
Definition truncate565 (p : rgb) : Z * Z * Z :=
  (Z.shiftr (chan0 p) 3, Z.shiftr (chan1 p) 2, Z.shiftr (chan2 p) 3).

(** The two bytes of a pixel as section 4.3 of the specification writes
    them, on unbounded integers. *)
Definition packed_bytes (p : rgb) : list Z :=
  [ Z.lor (Z.shiftl (Z.shiftr (chan0 p) 3) 3)
          (Z.shiftr (Z.shiftr (chan1 p) 2) 3);
    Z.lor (Z.shiftr (chan2 p) 3)
          (Z.shiftl (Z.land (Z.shiftr (chan1 p) 2) 0x07) 5) ].

(** The channels of a pixel cut down to five, six and five bits, as
    quotients. *)
Definition r5 (p : rgb) : Z := chan0 p / 8.
Definition g6 (p : rgb) : Z := chan1 p / 4.
Definition b5 (p : rgb) : Z := chan2 p / 8.

(** ** Operating-system calls, exceptions and the monad of the driver *)

(** The exceptions the driver can meet: [OSError] from spidev and from the
    GPIO files, [OverflowError] from [int.to_bytes]. *)
Inductive exn : Type := OSError | OverflowError.

Inductive result (A : Type) : Type :=
| Ok (a : A)
| Raise (e : exn).
Arguments Ok {A} a.
Arguments Raise {A} e.

(** One event per call that leaves the interpreter.  A file written through
    [open(path, mode='wb', buffering=0)] is named by its path; the bytes
    [b'0'] and [b'1'] are the strings ["0"] and ["1"]; [time.sleep] takes
    seconds, recorded here in milliseconds. *)
Inductive event : Type :=
| SpiOpen (bus device : Z)
| SpiMaxSpeedHz (hz : Z)
| SpiMode (mode : Z)
| SpiWriteBytes (data : list Z)
| SpiWriteBytes2 (data : list Z)
| SpiClose
| FileOpen (path : string)
| FileWrite (path : string) (data : string)
| FileClose (path : string)
| Sleep (millis : Z).

(** A computation is given the fault schedule of the calls to come (one
    boolean per fallible call, [true] = the call raises [OSError]; past the
    end of the list nothing fails) and gives back the events it produced,
    the rest of the schedule, and its value or the exception raised. *)
Definition M (A : Type) : Type :=
  list bool -> list event * list bool * result A.

#[export] Instance M_ret : MRet M := fun A a fs => ([], fs, Ok a).

#[export] Instance M_bind : MBind M := fun A B k m fs =>
  match m fs with
  | (t1, fs1, Ok a) =>
      match k a fs1 with
      | (t2, fs2, r) => (t1 ++ t2, fs2, r)
      end
  | (t1, fs1, Raise e) => (t1, fs1, Raise e)
  end.

(** A call that may fail. *)
Definition syscall (e : event) : M unit := fun fs =>
  match fs with
  | true :: fs' => ([], fs', Raise OSError)
  | false :: fs' => ([e], fs', Ok tt)
  | [] => ([e], [], Ok tt)
  end.

(** A call that does not fail. *)
Definition emit (e : event) : M unit := fun fs => ([e], fs, Ok tt).

(** A pure Python operation that may raise. *)
Definition lift {A : Type} (r : result A) : M A := fun fs => ([], fs, r).

(** [with open(path, mode='wb', buffering=0) as f: body]: the file is
    closed on the way out, whether [body] returns or raises. *)
Definition with_open {A : Type} (path : string) (body : M A) : M A := fun fs =>
  match syscall (FileOpen path) fs with
  | (t0, fs0, Ok _) =>
      match body fs0 with
      | (t1, fs1, r) => (t0 ++ t1 ++ [FileClose path], fs1, r)
      end
  | (t0, fs0, Raise e) => (t0, fs0, Raise e)
  end.

(** [n.to_bytes(length, byteorder='big')] *)
Fixpoint big_endian (length : nat) (n : Z) : list Z :=
  match length with
  | O => []
  | S k => (n / 256 ^ Z.of_nat k) mod 256 :: big_endian k n
  end.

Definition to_bytes (n : Z) (length : nat) : result (list Z) :=
  if (0 <=? n) && (n <? 256 ^ Z.of_nat length)
  then Ok (big_endian length n)
  else Raise OverflowError.

(** The values [to_bytes(2, ...)] accepts. *)
Definition uint16 (z : Z) : Prop := 0 <= z < 65536.

(** ** The class [Ili9328Spi] *)

Record Ili9328Spi : Type := {
  spibus_num : Z;
  spidevice_num : Z;
  spi_speed_hz : Z;
  spi_cs_pin : string;
  reset_pin : string;
  PIN_ACTIVE : string;
  PIN_INACTIVE : string;
  IMAGE_WIDTH : Z;
  IMAGE_HEIGHT : Z;
  BITS_PER_PIXEL : Z
}.

(** [write_cmd], lines 153-177. *)
Definition write_cmd (self : Ili9328Spi) (regaddr data16 : Z) : M unit :=
  syscall (SpiOpen (spibus_num self) (spidevice_num self)) ;;
  syscall (SpiMaxSpeedHz (spi_speed_hz self)) ;;
  syscall (SpiMode 3) ;;
  with_open (spi_cs_pin self) (
    syscall (FileWrite (spi_cs_pin self) (PIN_ACTIVE self)) ;;
    addr_bytes ← lift (to_bytes regaddr 2) ;
    syscall (SpiWriteBytes ([0x70] ++ addr_bytes)) ;;
    syscall (FileWrite (spi_cs_pin self) (PIN_INACTIVE self)) ;;
    syscall (FileWrite (spi_cs_pin self) (PIN_ACTIVE self)) ;;
    data_bytes ← lift (to_bytes data16 2) ;
    syscall (SpiWriteBytes ([0x72] ++ data_bytes)) ;;
    syscall (FileWrite (spi_cs_pin self) (PIN_INACTIVE self))) ;;
  syscall SpiClose.

(** [write_gram], lines 180-201. *)
Definition write_gram (self : Ili9328Spi) (image_array : list (list (list Z)))
  : M unit :=
  syscall (SpiOpen (spibus_num self) (spidevice_num self)) ;;
  syscall (SpiMaxSpeedHz (spi_speed_hz self)) ;;
  syscall (SpiMode 3) ;;
  with_open (spi_cs_pin self) (
    syscall (FileWrite (spi_cs_pin self) (PIN_ACTIVE self)) ;;
    syscall (SpiWriteBytes [0x70; 0x00; 0x22]) ;;
    syscall (FileWrite (spi_cs_pin self) (PIN_INACTIVE self)) ;;
    syscall (FileWrite (spi_cs_pin self) (PIN_ACTIVE self)) ;;
    syscall (SpiWriteBytes2 (Numpy.insert0 image_array 0x72)) ;;
    syscall (FileWrite (spi_cs_pin self) (PIN_INACTIVE self))) ;;
  syscall SpiClose.

(** [block_image], lines 91-150. *)
Definition block_image (self : Ili9328Spi) (x0 y0 : Z) (pil_image : ndarray)
  : M unit :=
  let rgb888 := pil_image in
  let height := Z.of_nat (shape_height rgb888) in
  let width := Z.of_nat (shape_width rgb888) in
  let rgb565 := Convert.rgb565 rgb888 in
  let x0 := Z.min (Z.max x0 0) (IMAGE_WIDTH self - 1) in
  let y0 := Z.min (Z.max y0 0) (IMAGE_HEIGHT self - 1) in
  write_cmd self 0x20 x0 ;;
  write_cmd self 0x21 y0 ;;
  write_cmd self 0x50 x0 ;;
  write_cmd self 0x52 y0 ;;
  let x := Z.min (Z.max (x0 + width - 1) 0) (IMAGE_WIDTH self - 1) in
  let y := Z.min (Z.max (y0 + height - 1) 0) (IMAGE_HEIGHT self - 1) in
  write_cmd self 0x51 x ;;
  write_cmd self 0x53 y ;;
  write_gram self rgb565.

(** [image], lines 81-88. *)
Definition image (self : Ili9328Spi) (pil_image : ndarray) : M unit :=
  block_image self 0 0 pil_image.

(** [set_spi_speed_hz] and [get_draw_image_size], lines 60-78. *)
Definition set_spi_speed_hz (self : Ili9328Spi) (speed : Z) : Ili9328Spi :=
  {| spibus_num := spibus_num self;
     spidevice_num := spidevice_num self;
     spi_speed_hz := speed;
     spi_cs_pin := spi_cs_pin self;
     reset_pin := reset_pin self;
     PIN_ACTIVE := PIN_ACTIVE self;
     PIN_INACTIVE := PIN_INACTIVE self;
     IMAGE_WIDTH := IMAGE_WIDTH self;
     IMAGE_HEIGHT := IMAGE_HEIGHT self;
     BITS_PER_PIXEL := BITS_PER_PIXEL self |}.

Definition get_draw_image_size (self : Ili9328Spi) : Z * Z :=
  (IMAGE_WIDTH self, IMAGE_HEIGHT self).

(** [init_ili9328], lines 204-278. *)
Definition init_ili9328 (self : Ili9328Spi) : M unit :=
  with_open (spi_cs_pin self) (
    syscall (FileWrite (spi_cs_pin self) (PIN_INACTIVE self))) ;;
  with_open (reset_pin self) (
    syscall (FileWrite (reset_pin self) (PIN_INACTIVE self)) ;;
    emit (Sleep 10) ;;
    syscall (FileWrite (reset_pin self) (PIN_ACTIVE self)) ;;
    emit (Sleep 10) ;;
    syscall (FileWrite (reset_pin self) (PIN_INACTIVE self)) ;;
    emit (Sleep 50)) ;;
  write_cmd self 0x0001 0x0100 ;;
  write_cmd self 0x0002 0x0700 ;;
  write_cmd self 0x0003 0x1030 ;;
  write_cmd self 0x0004 0x0000 ;;
  write_cmd self 0x0008 0x0207 ;;
  write_cmd self 0x0009 0x0000 ;;
  write_cmd self 0x000A 0x0000 ;;
  write_cmd self 0x000C 0x0000 ;;
  write_cmd self 0x000D 0x0000 ;;
  write_cmd self 0x000F 0x0000 ;;
  write_cmd self 0x0010 0x0000 ;;
  write_cmd self 0x0011 0x0007 ;;
  write_cmd self 0x0012 0x0000 ;;
  write_cmd self 0x0013 0x0000 ;;
  write_cmd self 0x0007 0x0001 ;;
  emit (Sleep 200) ;;
  write_cmd self 0x0010 0x1490 ;;
  write_cmd self 0x0011 0x0227 ;;
  emit (Sleep 50) ;;
  write_cmd self 0x0012 0x001C ;;
  emit (Sleep 50) ;;
  write_cmd self 0x0013 0x1A00 ;;
  write_cmd self 0x0029 0x0025 ;;
  write_cmd self 0x002B 0x000C ;;
  emit (Sleep 50) ;;
  write_cmd self 0x0020 0x0000 ;;
  write_cmd self 0x0021 0x0000 ;;
  write_cmd self 0x0030 0x0000 ;;
  write_cmd self 0x0031 0x0506 ;;
  write_cmd self 0x0032 0x0104 ;;
  write_cmd self 0x0035 0x0207 ;;
  write_cmd self 0x0036 0x000F ;;
  write_cmd self 0x0037 0x0306 ;;
  write_cmd self 0x0038 0x0102 ;;
  write_cmd self 0x0039 0x0707 ;;
  write_cmd self 0x003C 0x0702 ;;
  write_cmd self 0x003D 0x1604 ;;
  write_cmd self 0x0050 0x0000 ;;
  write_cmd self 0x0051 0x00EF ;;
  write_cmd self 0x0052 0x0000 ;;
  write_cmd self 0x0053 0x013F ;;
  write_cmd self 0x0060 0xA700 ;;
  write_cmd self 0x0061 0x0001 ;;
  write_cmd self 0x006A 0x0000 ;;
  write_cmd self 0x0080 0x0000 ;;
  write_cmd self 0x0081 0x0000 ;;
  write_cmd self 0x0082 0x0000 ;;
  write_cmd self 0x0083 0x0000 ;;
  write_cmd self 0x0084 0x0000 ;;
  write_cmd self 0x0085 0x0000 ;;
  write_cmd self 0x0090 0x0010 ;;
  write_cmd self 0x0092 0x0600 ;;
  write_cmd self 0x0007 0x0133.

(** [__init__], lines 18-57: the attribute assignments, then the
    initialization of the controller.  [attributes] is the state of the
    object once line 54 has run; it is what [self] holds whether or not
    [init_ili9328] then returns. *)
Definition attributes (spibus spidevice spi_speed_hz : Z)
  (gpio_cs gpio_rst : string) : Ili9328Spi :=
  {| spibus_num := spibus;
     spidevice_num := spidevice;
     spi_speed_hz := spi_speed_hz;
     spi_cs_pin := gpio_cs;
     reset_pin := gpio_rst;
     PIN_ACTIVE := "0";
     PIN_INACTIVE := "1";
     IMAGE_WIDTH := 240;
     IMAGE_HEIGHT := 320;
     BITS_PER_PIXEL := 16 |}.

Definition __init__ (spibus spidevice spi_speed_hz : Z)
  (gpio_cs gpio_rst : string) : M Ili9328Spi :=
  let self := attributes spibus spidevice spi_speed_hz gpio_cs gpio_rst in
  init_ili9328 self ;;
  mret self.

(** The public operations that reach the bus. *)
Inductive operation : Type :=
| Construct
| DrawFull (buffer : ndarray)
| DrawRegion (x y : Z) (buffer : ndarray).

Definition perform (spibus spidevice hz : Z) (gpio_cs gpio_rst : string)
  (op : operation) : M unit :=
  let self := attributes spibus spidevice hz gpio_cs gpio_rst in
  match op with
  | Construct => __init__ spibus spidevice hz gpio_cs gpio_rst ;; mret tt
  | DrawFull buffer => image self buffer
  | DrawRegion x y buffer => block_image self x y buffer
  end.

(** ** Running a computation *)

(** The events of the run in which no call fails. *)
Definition trace_of {A : Type} (m : M A) : list event := (m []).1.1.

(** Does one of the next [n] fallible calls fail? *)
Definition has_fault (n : nat) (fs : list bool) : bool :=
  existsb id (take n fs).

(** A computation that raises whatever the operating system does. *)
Definition raises {A : Type} (m : M A) : Prop :=
  forall fs, exists e, (m fs).2 = Raise e.

(** ** What the bus and the controller see

    The definitions of this part are not code of the driver: they read a
    trace the way the wires and the ILI9328 do, so that the statements
    about frames, registers and the address window can be written down. *)

(** Traffic on the wires: bytes clocked out on SPI and levels written to a
    GPIO line. *)
Definition is_bus (e : event) : bool :=
  match e with
  | SpiWriteBytes _ | SpiWriteBytes2 _ | FileWrite _ _ => true
  | _ => false
  end.

Definition bus (t : list event) : list event := List.filter is_bus t.

(** The levels written to the chip-select line, in order. *)
Definition cs_write (self : Ili9328Spi) (e : event) : option string :=
  match e with
  | FileWrite path data =>
      if decide (path = spi_cs_pin self) then Some data else None
  | _ => None
  end.

Definition cs_writes (self : Ili9328Spi) (t : list event) : list string :=
  omap (cs_write self) t.

(** The level of the chip-select line after [t], from the level [before]. *)
Definition cs_level (self : Ili9328Spi) (before : string) (t : list event)
  : string :=
  List.last (cs_writes self t) before.

(** Number of SPI transfers in a trace. *)
Definition is_transfer (e : event) : bool :=
  match e with
  | SpiWriteBytes _ | SpiWriteBytes2 _ => true
  | _ => false
  end.

(** The frames the controller receives: the bytes clocked out while
    chip-select is active, one frame per assertion of the line.  [sel] is
    [Some f] while the line is active and [f] has been received so far. *)
Fixpoint frames_from (self : Ili9328Spi) (sel : option (list Z))
  (t : list event) : list (list Z) :=
  match t with
  | [] => []
  | e :: t' =>
      match e with
      | FileWrite path data =>
          if decide (path = spi_cs_pin self) then
            if decide (data = PIN_ACTIVE self) then
              frames_from self (Some []) t'
            else
              match sel with
              | Some f => f :: frames_from self None t'
              | None => frames_from self None t'
              end
          else frames_from self sel t'
      | SpiWriteBytes d | SpiWriteBytes2 d =>
          match sel with
          | Some f => frames_from self (Some (f ++ d)) t'
          | None => frames_from self None t'
          end
      | _ => frames_from self sel t'
      end
  end.

Definition frames (self : Ili9328Spi) (t : list event) : list (list Z) :=
  frames_from self None t.

(** The ILI9328 reads a frame that starts with 0x70 as the selection of an
    index register and a frame that starts with 0x72 as data for the
    selected register; index 0x22 is the port into graphics RAM. *)
Inductive access : Type :=
| RegWrite (addr value : Z)
| GramWrite (data : list Z).

Fixpoint accesses_from (index : Z) (fs : list (list Z)) : list access :=
  match fs with
  | [] => []
  | f :: fs' =>
      match f with
      | [start; hi; lo] =>
          if start =? 0x70 then accesses_from (hi * 256 + lo) fs'
          else if start =? 0x72 then
            (if index =? 0x22 then GramWrite [hi; lo]
             else RegWrite index (hi * 256 + lo)) :: accesses_from index fs'
          else accesses_from index fs'
      | start :: d =>
          if (start =? 0x72) && (index =? 0x22)
          then GramWrite d :: accesses_from index fs'
          else accesses_from index fs'
      | [] => accesses_from index fs'
      end
  end.

Definition accesses (self : Ili9328Spi) (t : list event) : list access :=
  accesses_from 0 (frames self t).

(** The register file of the controller after a list of accesses. *)
Definition store (regs : gmap Z Z) (a : access) : gmap Z Z :=
  match a with
  | RegWrite addr value => <[addr := value]> regs
  | GramWrite _ => regs
  end.

Definition regfile (l : list access) : gmap Z Z := foldl store ∅ l.

(** The address window: horizontal start and end (registers 0x50, 0x51),
    vertical start and end (registers 0x52, 0x53). *)
Record AddressWindow : Type := {
  win_x0 : Z;
  win_y0 : Z;
  win_x1 : Z;
  win_y1 : Z
}.

Definition window (regs : gmap Z Z) : option AddressWindow :=
  x0 ← regs !! 0x50 ;
  y0 ← regs !! 0x52 ;
  x1 ← regs !! 0x51 ;
  y1 ← regs !! 0x53 ;
  Some {| win_x0 := x0; win_y0 := y0; win_x1 := x1; win_y1 := y1 |}.

Definition window_rows (w : AddressWindow) : Z := win_y1 w - win_y0 w + 1.

(** [min(max(v, 0), dim - 1)] *)
Definition clamp (v dim : Z) : Z := Z.min (Z.max v 0) (dim - 1).

(** The register writes of [init_ili9328], lines 220-278, as the controller
    is to receive them. *)
Definition init_registers : list access :=
  [ RegWrite 0x0001 0x0100; RegWrite 0x0002 0x0700; RegWrite 0x0003 0x1030;
    RegWrite 0x0004 0x0000; RegWrite 0x0008 0x0207; RegWrite 0x0009 0x0000;
    RegWrite 0x000A 0x0000; RegWrite 0x000C 0x0000; RegWrite 0x000D 0x0000;
    RegWrite 0x000F 0x0000;
    RegWrite 0x0010 0x0000; RegWrite 0x0011 0x0007; RegWrite 0x0012 0x0000;
    RegWrite 0x0013 0x0000; RegWrite 0x0007 0x0001;
    RegWrite 0x0010 0x1490; RegWrite 0x0011 0x0227; RegWrite 0x0012 0x001C;
    RegWrite 0x0013 0x1A00; RegWrite 0x0029 0x0025; RegWrite 0x002B 0x000C;
    RegWrite 0x0020 0x0000; RegWrite 0x0021 0x0000;
    RegWrite 0x0030 0x0000; RegWrite 0x0031 0x0506; RegWrite 0x0032 0x0104;
    RegWrite 0x0035 0x0207; RegWrite 0x0036 0x000F; RegWrite 0x0037 0x0306;
    RegWrite 0x0038 0x0102; RegWrite 0x0039 0x0707; RegWrite 0x003C 0x0702;
    RegWrite 0x003D 0x1604;
    RegWrite 0x0050 0x0000; RegWrite 0x0051 0x00EF; RegWrite 0x0052 0x0000;
    RegWrite 0x0053 0x013F; RegWrite 0x0060 0xA700; RegWrite 0x0061 0x0001;
    RegWrite 0x006A 0x0000;
    RegWrite 0x0080 0x0000; RegWrite 0x0081 0x0000; RegWrite 0x0082 0x0000;
    RegWrite 0x0083 0x0000; RegWrite 0x0084 0x0000; RegWrite 0x0085 0x0000;
    RegWrite 0x0090 0x0010; RegWrite 0x0092 0x0600;
    RegWrite 0x0007 0x0133 ].

(** ** The events of the fault-free runs *)

Definition write_cmd_trace (self : Ili9328Spi) (regaddr data16 : Z)
  : list event :=
  [ SpiOpen (spibus_num self) (spidevice_num self);
    SpiMaxSpeedHz (spi_speed_hz self);
    SpiMode 3;
    FileOpen (spi_cs_pin self);
    FileWrite (spi_cs_pin self) (PIN_ACTIVE self);
    SpiWriteBytes [0x70; regaddr / 256; regaddr mod 256];
    FileWrite (spi_cs_pin self) (PIN_INACTIVE self);
    FileWrite (spi_cs_pin self) (PIN_ACTIVE self);
    SpiWriteBytes [0x72; data16 / 256; data16 mod 256];
    FileWrite (spi_cs_pin self) (PIN_INACTIVE self);
    FileClose (spi_cs_pin self);
    SpiClose ].

Definition write_gram_trace (self : Ili9328Spi) (bytes : list Z)
  : list event :=
  [ SpiOpen (spibus_num self) (spidevice_num self);
    SpiMaxSpeedHz (spi_speed_hz self);
    SpiMode 3;
    FileOpen (spi_cs_pin self);
    FileWrite (spi_cs_pin self) (PIN_ACTIVE self);
    SpiWriteBytes [0x70; 0x00; 0x22];
    FileWrite (spi_cs_pin self) (PIN_INACTIVE self);
    FileWrite (spi_cs_pin self) (PIN_ACTIVE self);
    SpiWriteBytes2 (0x72 :: bytes);
    FileWrite (spi_cs_pin self) (PIN_INACTIVE self);
    FileClose (spi_cs_pin self);
    SpiClose ].

(** The events of a fault-free [block_image]. *)
Definition block_image_trace (self : Ili9328Spi) (x y : Z) (a : ndarray)
  : list event :=
  let x0 := clamp x (IMAGE_WIDTH self) in
  let y0 := clamp y (IMAGE_HEIGHT self) in
  let x1 := clamp (x0 + Z.of_nat (shape_width a) - 1) (IMAGE_WIDTH self) in
  let y1 := clamp (y0 + Z.of_nat (shape_height a) - 1) (IMAGE_HEIGHT self) in
  write_cmd_trace self 0x20 x0 ++
  write_cmd_trace self 0x21 y0 ++
  write_cmd_trace self 0x50 x0 ++
  write_cmd_trace self 0x52 y0 ++
  write_cmd_trace self 0x51 x1 ++
  write_cmd_trace self 0x53 y1 ++
  write_gram_trace self (concat (concat (Convert.rgb565 a))).

(** The traffic of one register write on the wires: chip-select active,
    the index frame, chip-select inactive, chip-select active, the data
    frame, chip-select inactive. *)
Definition register_write_bus (gpio_cs : string) (regaddr data16 : Z)
  : list event :=
  [ FileWrite gpio_cs "0";
    SpiWriteBytes [0x70; regaddr / 256; regaddr mod 256];
    FileWrite gpio_cs "1";
    FileWrite gpio_cs "0";
    SpiWriteBytes [0x72; data16 / 256; data16 mod 256];
    FileWrite gpio_cs "1" ].

(** The traffic of one pixel stream on the wires. *)
Definition pixel_stream_bus (gpio_cs : string) (bytes : list Z)
  : list event :=
  [ FileWrite gpio_cs "0";
    SpiWriteBytes [0x70; 0x00; 0x22];
    FileWrite gpio_cs "1";
    FileWrite gpio_cs "0";
    SpiWriteBytes2 (0x72 :: bytes);
    FileWrite gpio_cs "1" ].

(** Every assertion of a line is followed at once by its de-assertion:
    in the list of levels written to it, each [act] is followed by
    [inact]. *)
Fixpoint paired (act inact : string) (l : list string) : bool :=
  match l with
  | [] => true
  | a :: l' =>
      if decide (a = act) then
        match l' with
        | b :: l'' => if decide (b = inact) then paired act inact l'' else false
        | [] => false
        end
      else paired act inact l'
  end.

(** [steady m n T a]: [m] makes [n] fallible calls; when none of them
    fails it produces the events [T] and returns [a]; when one fails it
    raises [OSError], and what reached the wires by then is a prefix of
    what the fault-free run sends. *)
Definition steady {A : Type} (m : M A) (n : nat) (T : list event) (a : A)
  : Prop :=
  forall fs : list bool,
    if has_fault n fs
    then exists t fs', m fs = (t, fs', Raise OSError) /\
                       bus t `prefix_of` bus T
    else m fs = (T, drop n fs, Ok a).

(** ** Sample inputs *)

(** The driver built with the default arguments of [__init__]. *)
Definition default_self : Ili9328Spi :=
  attributes 1 0 (500 * 1000) "/dev/null" "/dev/null".

(** A black image of the given size. *)
Definition black (width height : nat) : ndarray :=
  NdArray height width (replicate height (replicate width (Rgb 0 0 0))).

(** White, black and (0x08, 0x04, 0x08) in one row. *)
Definition sample_1x3 : ndarray :=
  NdArray 1 3 [[Rgb 0xFF 0xFF 0xFF; Rgb 0 0 0; Rgb 0x08 0x04 0x08]].

Definition sample_2x2 : ndarray :=
  NdArray 2 2 [[Rgb 0xFF 0xFF 0xFF; Rgb 0 0 0];
               [Rgb 0x08 0x04 0x08; Rgb 200 100 50]].

(** ** Resources, sessions and the packed word

    Definitions for the statements about what the driver leaves open, how
    its operations compose and how a pixel sits in its 16-bit word. *)

(** Counting the events of one kind in a trace. *)
Definition is_file_open (e : event) : bool :=
  match e with FileOpen _ => true | _ => false end.

Definition is_file_close (e : event) : bool :=
  match e with FileClose _ => true | _ => false end.

Definition is_spi_open (e : event) : bool :=
  match e with SpiOpen _ _ => true | _ => false end.

Definition is_spi_close (e : event) : bool :=
  match e with SpiClose => true | _ => false end.

Definition count (kind : event -> bool) (t : list event) : nat :=
  length (List.filter kind t).

(** What a run leaves behind: every file that was opened has been closed;
    the SPI device has been closed as often as opened when the run
    returns, and is open at most once too often when it raises. *)
Definition tidy {A : Type} (run : list event * list bool * result A) : Prop :=
  count is_file_open run.1.1 = count is_file_close run.1.1 /\
  match run.2 with
  | Ok _ => count is_spi_open run.1.1 = count is_spi_close run.1.1
  | Raise _ =>
      (count is_spi_close run.1.1 <= count is_spi_open run.1.1
       <= S (count is_spi_close run.1.1))%nat
  end.

(** The events of a driver whose [spi_speed_hz] is [hz]. *)
Definition at_speed (hz : Z) (e : event) : event :=
  match e with
  | SpiMaxSpeedHz _ => SpiMaxSpeedHz hz
  | _ => e
  end.

Definition run_at_speed {A : Type} (hz : Z)
  (run : list event * list bool * result A)
  : list event * list bool * result A :=
  (map (at_speed hz) run.1.1, run.1.2, run.2).

(** The 16-bit word of a pixel: five bits of red above six bits of green
    above five bits of blue. *)
Definition rgb565_word (p : rgb) : Z :=
  Z.lor (Z.shiftl (Z.shiftr (chan0 p) 3) 11)
        (Z.lor (Z.shiftl (Z.shiftr (chan1 p) 2) 5) (Z.shiftr (chan2 p) 3)).

(** The width and the height of a window, in pixels. *)
Definition window_columns (w : AddressWindow) : Z := win_x1 w - win_x0 w + 1.

(** The window [block_image] programs: the start clamped into the panel,
    the end computed from the clamped start. *)
Definition drawn_window (x y : Z) (a : ndarray) : AddressWindow :=
  {| win_x0 := clamp x 240;
     win_y0 := clamp y 320;
     win_x1 := clamp (clamp x 240 + Z.of_nat (shape_width a) - 1) 240;
     win_y1 := clamp (clamp y 320 + Z.of_nat (shape_height a) - 1) 320 |}.

(** The six registers [block_image] writes. *)
Definition draw_registers : list Z := [0x20; 0x21; 0x50; 0x52; 0x51; 0x53].

(** The two bytes of a packed pixel read as one big-endian number. *)
Definition word_of (px : list Z) : option Z :=
  match px with
  | [b0; b1] => Some (b0 * 256 + b1)
  | _ => None
  end.

(** The bytes of a pixel from its truncated channels. *)
Definition pack_truncated (c : Z * Z * Z) : list Z :=
  match c with
  | (r, g, b) => [r * 8 + g / 8; g mod 8 * 32 + b]
  end.

(** Construction followed by one draw on the driver it returns, and two
    draws in a row. *)
Definition construct_then_draw (spibus spidevice hz : Z)
  (gpio_cs gpio_rst : string) (x y : Z) (a : ndarray) : M unit :=
  tft ← __init__ spibus spidevice hz gpio_cs gpio_rst ;
  block_image tft x y a.

Definition draw_twice (self : Ili9328Spi) (x1 y1 : Z) (a1 : ndarray)
  (x2 y2 : Z) (a2 : ndarray) : M unit :=
  block_image self x1 y1 a1 ;;
  block_image self x2 y2 a2.

(** The accesses of one draw. *)
Definition draw_accesses (x y : Z) (a : ndarray) : list access :=
  [ RegWrite 0x20 (win_x0 (drawn_window x y a));
    RegWrite 0x21 (win_y0 (drawn_window x y a));
    RegWrite 0x50 (win_x0 (drawn_window x y a));
    RegWrite 0x52 (win_y0 (drawn_window x y a));
    RegWrite 0x51 (win_x1 (drawn_window x y a));
    RegWrite 0x53 (win_y1 (drawn_window x y a));
    GramWrite (concat (concat (Convert.rgb565 a))) ].

(** The levels written to the GPIO file [path], in order. *)
Definition line_write (path : string) (e : event) : option string :=
  match e with
  | FileWrite p data => if decide (p = path) then Some data else None
  | _ => None
  end.

Definition line_writes (path : string) (t : list event) : list string :=
  omap (line_write path) t.

(** The time a trace spends in [time.sleep], in milliseconds. *)
Definition sleep_total (t : list event) : Z :=
  foldr (fun e acc => match e with Sleep millis => millis + acc | _ => acc end)
        0 t.

(** The first events of [init_ili9328]: chip-select released, then the
    reset pulse. *)
Definition reset_prologue (gpio_cs gpio_rst : string) : list event :=
  [ FileOpen gpio_cs; FileWrite gpio_cs "1"; FileClose gpio_cs;
    FileOpen gpio_rst;
    FileWrite gpio_rst "1"; Sleep 10;
    FileWrite gpio_rst "0"; Sleep 10;
    FileWrite gpio_rst "1"; Sleep 50;
    FileClose gpio_rst ].

(** An image of width zero. *)
Definition sample_no_columns : ndarray := NdArray 2 0 [[]; []].

(** * Properties *)

(** ** Pixel conversion: the planes are the per-pixel bytes *)

Section PlaneLemmas.
Import Numpy Convert.

Lemma zip_row_map (f : Z -> Z -> Z) (g h : rgb -> Z) (r : list rgb) :
  zip_row f (map g r) (map h r) = map (fun p => f (g p) (h p)) r.
Proof. induction r as [|p r IH]; simpl; [done | by rewrite IH]. Qed.

Lemma map2_map (f : Z -> Z -> Z) (g h : rgb -> Z) (rs : list (list rgb)) :
  map2 f (map (map g) rs) (map (map h) rs)
  = map (map (fun p => f (g p) (h p))) rs.
Proof.
  induction rs as [|r rs IH]; simpl; [done |].
  by rewrite zip_row_map, IH.
Qed.

Lemma pair_row_map (g h : rgb -> Z) (r : list rgb) :
  pair_row (map g r) (map h r) = map (fun p => [g p; h p]) r.
Proof. induction r as [|p r IH]; simpl; [done | by rewrite IH]. Qed.

Lemma pair_planes_map (g h : rgb -> Z) (rs : list (list rgb)) :
  pair_planes (map (map g) rs) (map (map h) rs)
  = map (map (fun p => [g p; h p])) rs.
Proof.
  induction rs as [|r rs IH]; simpl; [done |].
  by rewrite pair_row_map, IH.
Qed.

Lemma map_map_map {A B C} (f : A -> B) (g : B -> C) (l : list (list A)) :
  map (map g) (map (map f) l) = map (map (fun x => g (f x))) l.
Proof.
  induction l as [|r l IH]; simpl; [done |].
  by rewrite map_map, IH.
Qed.

Lemma plane0_pixelwise (a : ndarray) : plane0 a = map (map byte0) (rows a).
Proof.
  unfold plane0, red, green, channel, map1.
  rewrite !map_map_map, map2_map. reflexivity.
Qed.

Lemma plane1_pixelwise (a : ndarray) : plane1 a = map (map byte1) (rows a).
Proof.
  unfold plane1, blue, green, channel, map1.
  rewrite !map_map_map, map2_map. reflexivity.
Qed.

Lemma rgb565_pixelwise (a : ndarray) : rgb565 a = map (map pack) (rows a).
Proof.
  unfold rgb565. rewrite plane0_pixelwise, plane1_pixelwise.
  apply pair_planes_map.
Qed.

End PlaneLemmas.

(** ** Bit-level facts used by the conversion *)

Lemma testbit_small (x n m : Z) :
  0 <= x < 2 ^ n -> 0 <= n -> n <= m -> Z.testbit x m = false.
Proof.
  intros Hx Hn Hm.
  rewrite <- (Z.mod_small x (2 ^ n)) by exact Hx.
  apply Z.mod_pow2_bits_high. lia.
Qed.

(** An "or" of a value shifted left by [n] and a value below [2^n] is a
    sum: the two never share a bit. *)
Lemma lor_shifted (hi lo n : Z) :
  0 <= n -> 0 <= lo < 2 ^ n ->
  Z.lor (Z.shiftl hi n) lo = hi * 2 ^ n + lo.
Proof.
  intros Hn Hlo.
  rewrite Z.shiftl_mul_pow2 by exact Hn.
  symmetry. apply Z.add_nocarry_lor.
  apply Z.bits_inj'. intros m Hm.
  rewrite Z.land_spec, Z.bits_0.
  destruct (Z.lt_ge_cases m n) as [Hlt|Hge].
  - rewrite Z.mul_pow2_bits_low by exact Hlt. reflexivity.
  - rewrite (testbit_small lo n m) by assumption.
    apply andb_false_r.
Qed.

Lemma land_low_mask (x n : Z) :
  0 <= n -> Z.land x (2 ^ n - 1) = x mod 2 ^ n.
Proof.
  intros Hn.
  replace (2 ^ n - 1) with (Z.ones n) by (rewrite Z.ones_equiv; lia).
  apply Z.land_ones, Hn.
Qed.

Lemma uint8_id (x : Z) : byte_range x -> Numpy.uint8 x = x.
Proof. intros Hx. apply Z.mod_small, Hx. Qed.

(** *** The bytes of one pixel as quotients and remainders *)

Section PackArith.
Import Numpy Convert.

Variable p : rgb.
Hypothesis Hp : rgb_ok p.

Lemma channel_bounds :
  0 <= r5 p < 32 /\ 0 <= g6 p < 64 /\ 0 <= b5 p < 32.
Proof.
  destruct Hp as (H0 & H1 & H2). unfold byte_range, r5, g6, b5 in *.
  repeat split;
    first [ apply Z.div_pos; lia | apply Z.div_lt_upper_bound; lia ].
Qed.

Ltac name_channels :=
  rewrite ?Z.shiftr_div_pow2 by lia;
  change (2 ^ 3) with 8; change (2 ^ 2) with 4;
  fold (r5 p) (g6 p) (b5 p);
  set (r := r5 p) in *; set (g := g6 p) in *; set (b := b5 p) in *.

Ltac in_byte := unfold byte_range; lia.

Lemma byte0_arith : byte0 p = r5 p * 8 + g6 p / 8.
Proof.
  destruct channel_bounds as (Hr & Hg & _).
  unfold byte0, bor, lshift, rshift. name_channels.
  assert (Hg8 : 0 <= g / 8 < 8).
  { split; [apply Z.div_pos; lia | apply Z.div_lt_upper_bound; lia]. }
  assert (Hs : Z.shiftl r 3 = r * 8) by (rewrite Z.shiftl_mul_pow2; lia).
  rewrite !(uint8_id r), !(uint8_id g), (uint8_id (g / 8)) by in_byte.
  rewrite (uint8_id (Z.shiftl r 3)) by (rewrite Hs; in_byte).
  rewrite (lor_shifted r (g / 8) 3) by (change (2 ^ 3) with 8; lia).
  change (2 ^ 3) with 8.
  apply uint8_id. in_byte.
Qed.

Lemma byte1_arith : byte1 p = (g6 p mod 8) * 32 + b5 p.
Proof.
  destruct channel_bounds as (_ & Hg & Hb).
  unfold byte1, bor, lshift, rshift, band. name_channels.
  assert (Hg8 : 0 <= g mod 8 < 8) by (apply Z.mod_pos_bound; lia).
  assert (Hs : Z.shiftl (g mod 8) 5 = (g mod 8) * 32)
    by (rewrite Z.shiftl_mul_pow2; lia).
  rewrite !(uint8_id b), !(uint8_id g) by in_byte.
  change 7 with (2 ^ 3 - 1). rewrite land_low_mask by lia.
  change (2 ^ 3) with 8.
  rewrite (uint8_id (g mod 8)) by in_byte.
  rewrite (uint8_id (Z.shiftl (g mod 8) 5)) by (rewrite Hs; in_byte).
  rewrite Z.lor_comm.
  rewrite (lor_shifted (g mod 8) b 5) by (change (2 ^ 5) with 32; lia).
  change (2 ^ 5) with 32.
  apply uint8_id. in_byte.
Qed.

(** The formulas of the conversion with no wrap-around at all. *)
Lemma byte0_plain :
  byte0 p = Z.lor (Z.shiftl (Z.shiftr (chan0 p) 3) 3)
                  (Z.shiftr (Z.shiftr (chan1 p) 2) 3).
Proof.
  destruct channel_bounds as (Hr & Hg & _).
  rewrite byte0_arith. name_channels.
  rewrite lor_shifted; change (2 ^ 3) with 8; [reflexivity | lia |].
  split; [apply Z.div_pos; lia | apply Z.div_lt_upper_bound; lia].
Qed.

Lemma byte1_plain :
  byte1 p = Z.lor (Z.shiftr (chan2 p) 3)
                  (Z.shiftl (Z.land (Z.shiftr (chan1 p) 2) 7) 5).
Proof.
  destruct channel_bounds as (_ & Hg & Hb).
  rewrite byte1_arith. name_channels.
  change 7 with (2 ^ 3 - 1). rewrite land_low_mask by lia.
  change (2 ^ 3) with 8.
  rewrite Z.lor_comm, lor_shifted; change (2 ^ 5) with 32;
    [reflexivity | lia | lia].
Qed.

End PackArith.

(** ** The monad: fault schedules and steady computations *)

Lemma has_fault_nil (n : nat) : has_fault n [] = false.
Proof. unfold has_fault. by rewrite take_nil. Qed.

Lemma has_fault_0 (fs : list bool) : has_fault 0 fs = false.
Proof. reflexivity. Qed.

Lemma has_fault_add (n1 n2 : nat) (fs : list bool) :
  has_fault (n1 + n2) fs = has_fault n1 fs || has_fault n2 (drop n1 fs).
Proof.
  unfold has_fault.
  rewrite <- take_take_drop, existsb_app. reflexivity.
Qed.

Lemma bus_app (t1 t2 : list event) : bus (t1 ++ t2) = bus t1 ++ bus t2.
Proof. apply List.filter_app. Qed.

Lemma steady_cast {A} (m : M A) n n' T T' (a : A) :
  steady m n T a -> n = n' -> T = T' -> steady m n' T' a.
Proof. by intros H <- <-. Qed.

Lemma steady_ret {A} (a : A) : steady (mret a) 0 [] a.
Proof. intros fs. rewrite has_fault_0. reflexivity. Qed.

Lemma steady_lift {A} (a : A) : steady (lift (Ok a)) 0 [] a.
Proof. intros fs. rewrite has_fault_0. reflexivity. Qed.

Lemma steady_emit (e : event) : steady (emit e) 0 [e] tt.
Proof. intros fs. rewrite has_fault_0. reflexivity. Qed.

Lemma steady_syscall (e : event) : steady (syscall e) 1 [e] tt.
Proof.
  intros [|[] fs]; cbn; [reflexivity | | reflexivity].
  exists [], fs. split; [reflexivity | apply prefix_nil].
Qed.

Lemma steady_bind {A B} (m : M A) (k : A -> M B) n1 n2 T1 T2 a b :
  steady m n1 T1 a -> steady (k a) n2 T2 b ->
  steady (m ≫= k) (n1 + n2) (T1 ++ T2) b.
Proof.
  intros Hm Hk fs. specialize (Hm fs).
  rewrite has_fault_add. unfold mbind, M_bind.
  destruct (has_fault n1 fs); cbn.
  - destruct Hm as (t & fs' & -> & Hpre).
    exists t, fs'. split; [reflexivity |].
    rewrite bus_app. by apply prefix_app_r.
  - rewrite Hm. specialize (Hk (drop n1 fs)).
    destruct (has_fault n2 (drop n1 fs)).
    + destruct Hk as (t & fs' & -> & Hpre).
      exists (T1 ++ t), fs'. split; [reflexivity |].
      rewrite !bus_app. by apply prefix_app.
    + rewrite Hk, drop_drop. reflexivity.
Qed.

Lemma steady_with_open {A} (path : string) (body : M A) n T a :
  steady body n T a ->
  steady (with_open path body) (S n) (FileOpen path :: T ++ [FileClose path]) a.
Proof.
  intros Hb fs. unfold with_open.
  destruct fs as [|[] fs]; cbn.
  - specialize (Hb []). rewrite has_fault_nil in Hb.
    rewrite Hb, drop_nil. reflexivity.
  - exists [], fs. split; [reflexivity | apply prefix_nil].
  - specialize (Hb fs). fold (has_fault n fs).
    destruct (has_fault n fs).
    + destruct Hb as (t & fs' & -> & Hpre).
      exists (FileOpen path :: t ++ [FileClose path]), fs'.
      split; [reflexivity |].
      change (bus (FileOpen path :: ?l)) with (bus l).
      rewrite !bus_app. cbn. by rewrite !app_nil_r.
    + rewrite Hb. reflexivity.
Qed.

(** When nothing fails, a steady computation is its fault-free run. *)
Lemma steady_healthy {A} (m : M A) n T a :
  steady m n T a -> m [] = (T, [], Ok a).
Proof.
  intros H. specialize (H []).
  by rewrite has_fault_nil, drop_nil in H.
Qed.

Lemma steady_trace_of {A} (m : M A) n T a :
  steady m n T a -> trace_of m = T.
Proof. intros H. unfold trace_of. by rewrite (steady_healthy _ _ _ _ H). Qed.

(** A steady computation that returns has met no fault, produced the
    fault-free events and the fault-free value. *)
Lemma steady_returns {A} (m : M A) n T a fs t fs' a' :
  steady m n T a -> m fs = (t, fs', Ok a') ->
  has_fault n fs = false /\ t = T /\ fs' = drop n fs /\ a' = a.
Proof.
  intros H Hrun. specialize (H fs).
  destruct (has_fault n fs).
  - destruct H as (t0 & fs0 & Heq & _). congruence.
  - rewrite Hrun in H. by inversion H.
Qed.

(** A steady computation raises nothing but [OSError], and only when a
    call failed. *)
Lemma steady_raises {A} (m : M A) n T a fs t fs' e :
  steady m n T a -> m fs = (t, fs', Raise e) ->
  has_fault n fs = true /\ e = OSError /\ bus t `prefix_of` bus T.
Proof.
  intros H Hrun. specialize (H fs).
  destruct (has_fault n fs).
  - destruct H as (t0 & fs0 & Heq & Hpre).
    rewrite Hrun in Heq. inversion Heq; subst. done.
  - congruence.
Qed.

(** ** [to_bytes] *)

Lemma to_bytes_2 (n : Z) :
  uint16 n -> to_bytes n 2 = Ok [n / 256; n mod 256].
Proof.
  intros [Hlo Hhi]. unfold to_bytes.
  change (256 ^ Z.of_nat 2) with 65536.
  destruct (Z.leb_spec 0 n); [| lia].
  destruct (Z.ltb_spec n 65536); [| lia].
  cbn [andb big_endian]. change (256 ^ Z.of_nat 1) with 256.
  change (256 ^ Z.of_nat 0) with 1.
  rewrite Z.div_1_r. f_equal. f_equal.
  apply Z.mod_small. split; [apply Z.div_pos; lia |].
  apply Z.div_lt_upper_bound; lia.
Qed.

Lemma to_bytes_overflow (n : Z) :
  ~ uint16 n -> to_bytes n 2 = Raise OverflowError.
Proof.
  intros Hn. unfold to_bytes, uint16 in *.
  change (256 ^ Z.of_nat 2) with 65536.
  destruct (Z.leb_spec 0 n); destruct (Z.ltb_spec n 65536);
    cbn [andb]; try reflexivity; lia.
Qed.

(** The two bytes are bytes, and they are the big-endian digits. *)
Lemma big_endian_digits (n : Z) :
  uint16 n ->
  byte_range (n / 256) /\ byte_range (n mod 256) /\
  (n / 256) * 256 + n mod 256 = n.
Proof.
  intros [Hlo Hhi]. unfold byte_range. repeat split.
  - apply Z.div_pos; lia.
  - apply Z.div_lt_upper_bound; lia.
  - apply Z.mod_pos_bound; lia.
  - apply Z.mod_pos_bound; lia.
  - rewrite (Z.div_mod n 256) at 3 by lia. lia.
Qed.

(** ** The register link: [write_cmd] and [write_gram] *)

Section RegisterLink.

Variable self : Ili9328Spi.

Ltac steady_chain :=
  repeat first
    [ apply steady_syscall
    | apply steady_emit
    | apply steady_lift
    | apply steady_ret
    | eapply steady_with_open
    | eapply steady_bind ].

Lemma write_cmd_steady (regaddr data16 : Z) :
  uint16 regaddr -> uint16 data16 ->
  steady (write_cmd self regaddr data16) 11
         (write_cmd_trace self regaddr data16) tt.
Proof.
  intros Ha Hd. unfold write_cmd.
  rewrite (to_bytes_2 _ Ha), (to_bytes_2 _ Hd).
  eapply steady_cast; [steady_chain | reflexivity | reflexivity].
Qed.

Lemma write_gram_steady (image_array : list (list (list Z))) :
  steady (write_gram self image_array) 11
         (write_gram_trace self (concat (concat image_array))) tt.
Proof.
  unfold write_gram.
  eapply steady_cast; [steady_chain | reflexivity | reflexivity].
Qed.

End RegisterLink.

(** ** What the controller receives from a register write *)

Section Frames.

Variable self : Ili9328Spi.
Hypothesis levels_differ : PIN_ACTIVE self <> PIN_INACTIVE self.

Lemma frames_from_write_cmd sel regaddr data16 rest :
  frames_from self sel (write_cmd_trace self regaddr data16 ++ rest)
  = [0x70; regaddr / 256; regaddr mod 256]
      :: [0x72; data16 / 256; data16 mod 256]
      :: frames_from self None rest.
Proof.
  unfold write_cmd_trace. cbn [app frames_from].
  repeat first
    [ rewrite decide_True by reflexivity
    | rewrite decide_False by (intros E; apply levels_differ; by rewrite E) ].
  reflexivity.
Qed.

Lemma frames_from_write_gram sel bytes rest :
  frames_from self sel (write_gram_trace self bytes ++ rest)
  = [0x70; 0x00; 0x22] :: (0x72 :: bytes) :: frames_from self None rest.
Proof.
  unfold write_gram_trace. cbn [app frames_from].
  repeat first
    [ rewrite decide_True by reflexivity
    | rewrite decide_False by (intros E; apply levels_differ; by rewrite E) ].
  reflexivity.
Qed.

Lemma cs_writes_write_cmd regaddr data16 :
  cs_writes self (write_cmd_trace self regaddr data16)
  = [PIN_ACTIVE self; PIN_INACTIVE self; PIN_ACTIVE self; PIN_INACTIVE self].
Proof.
  unfold cs_writes, write_cmd_trace. cbn [omap list_omap cs_write].
  rewrite !decide_True by reflexivity. reflexivity.
Qed.

Lemma cs_writes_write_gram bytes :
  cs_writes self (write_gram_trace self bytes)
  = [PIN_ACTIVE self; PIN_INACTIVE self; PIN_ACTIVE self; PIN_INACTIVE self].
Proof.
  unfold cs_writes, write_gram_trace. cbn [omap list_omap cs_write].
  rewrite !decide_True by reflexivity. reflexivity.
Qed.

Lemma cs_writes_app t1 t2 :
  cs_writes self (t1 ++ t2) = cs_writes self t1 ++ cs_writes self t2.
Proof. apply omap_app. Qed.

End Frames.

(** The controller decodes the two frames of a register write, and the two
    frames of a pixel stream. *)
Lemma accesses_from_register index regaddr data16 rest :
  uint16 regaddr -> uint16 data16 -> regaddr <> 0x22 ->
  accesses_from index
    ([0x70; regaddr / 256; regaddr mod 256]
       :: [0x72; data16 / 256; data16 mod 256] :: rest)
  = RegWrite regaddr data16 :: accesses_from regaddr rest.
Proof.
  intros Ha Hd Hne.
  destruct (big_endian_digits _ Ha) as (_ & _ & Ea).
  destruct (big_endian_digits _ Hd) as (_ & _ & Ed).
  cbn [accesses_from]. rewrite Ea.
  change (0x70 =? 0x70) with true. cbn iota.
  cbn [accesses_from].
  change (0x72 =? 0x70) with false. change (0x72 =? 0x72) with true.
  cbn iota.
  destruct (Z.eqb_spec regaddr 0x22) as [E|_]; [contradiction |].
  by rewrite Ed.
Qed.

Lemma accesses_write_cmd_step (self : Ili9328Spi)
  (Hlev : PIN_ACTIVE self <> PIN_INACTIVE self) index sel regaddr data16 rest :
  uint16 regaddr -> uint16 data16 -> regaddr <> 0x22 ->
  accesses_from index
    (frames_from self sel (write_cmd_trace self regaddr data16 ++ rest))
  = RegWrite regaddr data16
      :: accesses_from regaddr (frames_from self None rest).
Proof.
  intros Ha Hd Hne.
  by rewrite (frames_from_write_cmd self Hlev), accesses_from_register.
Qed.

Lemma frames_from_sleep (self : Ili9328Spi) sel millis rest :
  frames_from self sel (Sleep millis :: rest) = frames_from self sel rest.
Proof. reflexivity. Qed.

Lemma accesses_from_stream index bytes rest :
  accesses_from index ([0x70; 0x00; 0x22] :: (0x72 :: bytes) :: rest)
  = GramWrite bytes :: accesses_from 0x22 rest.
Proof.
  destruct bytes as [|b1 [|b2 [|b3 bytes]]]; reflexivity.
Qed.

(** ** Pixel conversion *)

Lemma map_map_ext_Forall {A B} (P : A -> Prop) (f g : A -> B)
  (l : list (list A)) :
  (forall x, P x -> f x = g x) ->
  Forall (Forall P) l -> map (map f) l = map (map g) l.
Proof.
  intros Hfg Hl. induction Hl as [|r l Hr _ IH]; [reflexivity |].
  cbn [map]. rewrite IH. f_equal.
  induction Hr as [|x r Hx _ IHr]; [reflexivity |].
  cbn [map]. by rewrite IHr, (Hfg x Hx).
Qed.

Lemma ndarray_ok_pixels (a : ndarray) :
  ndarray_ok a -> Forall (Forall rgb_ok) (rows a).
Proof.
  intros [_ H]. eapply Forall_impl; [exact H |].
  by intros r [_ Hr].
Qed.

Lemma pack_plain (p : rgb) : rgb_ok p -> Convert.pack p = packed_bytes p.
Proof.
  intros Hp. unfold Convert.pack, packed_bytes.
  by rewrite (byte0_plain p Hp), (byte1_plain p Hp).
Qed.

Lemma decode_pack (p : rgb) :
  rgb_ok p -> decode565 (Convert.pack p) = Some (truncate565 p).
Proof.
  intros Hp.
  destruct (channel_bounds p Hp) as (Hr & Hg & Hb).
  unfold Convert.pack, decode565, truncate565.
  rewrite (byte0_arith p Hp), (byte1_arith p Hp).
  rewrite !Z.shiftr_div_pow2 by lia.
  change (2 ^ 3) with 8. change (2 ^ 2) with 4. change (2 ^ 5) with 32.
  change 0x07 with (2 ^ 3 - 1). change 0x1F with (2 ^ 5 - 1).
  rewrite !land_low_mask by lia.
  change (2 ^ 3) with 8. change (2 ^ 5) with 32.
  fold (r5 p) (g6 p) (b5 p).
  set (r := r5 p) in *. set (g := g6 p) in *. set (b := b5 p) in *.
  assert (E0 : (r * 8 + g / 8) / 8 = r)
    by (Z.div_mod_to_equations; lia).
  assert (E1 : (r * 8 + g / 8) mod 8 = g / 8)
    by (Z.div_mod_to_equations; lia).
  assert (E2 : (g mod 8 * 32 + b) / 32 = g mod 8)
    by (Z.div_mod_to_equations; lia).
  assert (E3 : (g mod 8 * 32 + b) mod 32 = b)
    by (Z.div_mod_to_equations; lia).
  rewrite E0, E1, E2, E3.
  rewrite lor_shifted by (change (2 ^ 3) with 8; Z.div_mod_to_equations; lia).
  change (2 ^ 3) with 8.
  do 3 f_equal. Z.div_mod_to_equations; lia.
Qed.

(** C1.  For an array of 8-bit RGB pixels, the array [rgb565] that
    [block_image] builds holds for every pixel exactly the two bytes
    [((R>>3)<<3) | ((G>>2)>>3)] and [(B>>3) | (((G>>2) & 0x07) << 5)]:
    the [uint8] wrap-around of numpy never bites.  White packs to
    (0xFF, 0xFF), black to (0x00, 0x00) and (0x08, 0x04, 0x08) to
    (0x08, 0x21). *)
Theorem rgb565_bit_exact (a : ndarray) (Ha : ndarray_ok a) :
  Convert.rgb565 a = map (map packed_bytes) (rows a) /\
  Convert.rgb565 sample_1x3 = [[[0xFF; 0xFF]; [0x00; 0x00]; [0x08; 0x21]]].
Proof.
  split; [| reflexivity].
  rewrite rgb565_pixelwise.
  apply (map_map_ext_Forall rgb_ok); [apply pack_plain |].
  by apply ndarray_ok_pixels.
Qed.

Lemma sample_2x2_ok : ndarray_ok sample_2x2.
Proof.
  split; [reflexivity |].
  repeat constructor; unfold byte_range; cbn; lia.
Defined.

Lemma rgb565_bit_exact_witness :
  ndarray_ok sample_2x2 /\
  Convert.rgb565 sample_2x2
  = [[[0xFF; 0xFF]; [0x00; 0x00]]; [[0x08; 0x21]; [0xCB; 0x26]]].
Proof.
  split; [exact sample_2x2_ok |].
  rewrite (proj1 (rgb565_bit_exact sample_2x2 sample_2x2_ok)). reflexivity.
Defined.

(** C2.  Nothing is lost inside the packing: reading the top five bits of
    the first byte gives [R>>3], the low five bits of the second byte give
    [B>>3], and the low three bits of the first byte put above the top
    three bits of the second give [G>>2], for every pixel of every array
    of 8-bit RGB pixels. *)
Theorem rgb565_decodes (a : ndarray) (Ha : ndarray_ok a) :
  map (map decode565) (Convert.rgb565 a)
  = map (map (fun p => Some (truncate565 p))) (rows a).
Proof.
  rewrite rgb565_pixelwise, map_map_map.
  apply (map_map_ext_Forall rgb_ok); [apply decode_pack |].
  by apply ndarray_ok_pixels.
Qed.

Lemma rgb565_decodes_witness :
  ndarray_ok sample_2x2 /\
  map (map decode565) (Convert.rgb565 sample_2x2)
  = [[Some (31, 63, 31); Some (0, 0, 0)]; [Some (1, 1, 1); Some (25, 25, 6)]].
Proof.
  split; [exact sample_2x2_ok |].
  rewrite (rgb565_decodes sample_2x2 sample_2x2_ok). reflexivity.
Defined.

(** ** Drawing *)

Lemma clamp_range (v dim : Z) : 0 < dim -> 0 <= clamp v dim <= dim - 1.
Proof. unfold clamp. lia. Qed.

Lemma clamp_inside (v dim : Z) : 0 <= v <= dim - 1 -> clamp v dim = v.
Proof. unfold clamp. lia. Qed.

Section Driver.

Variables spibus spidevice hz : Z.
Variables gpio_cs gpio_rst : string.

#[local] Abbreviation self := (attributes spibus spidevice hz gpio_cs gpio_rst).

Lemma levels_differ : PIN_ACTIVE self <> PIN_INACTIVE self.
Proof. discriminate. Qed.

(** [set_spi_speed_hz] changes the speed and nothing else. *)
Lemma set_spi_speed_hz_attributes (speed : Z) :
  set_spi_speed_hz self speed
  = attributes spibus spidevice speed gpio_cs gpio_rst.
Proof. reflexivity. Qed.

Lemma clamp_width_uint16 (v : Z) : uint16 (clamp v (IMAGE_WIDTH self)).
Proof.
  pose proof (clamp_range v 240 ltac:(lia)) as H.
  unfold uint16. cbn [IMAGE_WIDTH attributes]. lia.
Qed.

Lemma clamp_height_uint16 (v : Z) : uint16 (clamp v (IMAGE_HEIGHT self)).
Proof.
  pose proof (clamp_range v 320 ltac:(lia)) as H.
  unfold uint16. cbn [IMAGE_HEIGHT attributes]. lia.
Qed.

Lemma block_image_steady (x y : Z) (a : ndarray) :
  steady (block_image self x y a) 77 (block_image_trace self x y a) tt.
Proof.
  unfold block_image. cbv zeta.
  eapply steady_cast.
  - repeat (eapply steady_bind;
            [ apply write_cmd_steady;
              first [ apply clamp_width_uint16 | apply clamp_height_uint16
                    | unfold uint16; lia ] |]).
    apply write_gram_steady.
  - reflexivity.
  - reflexivity.
Qed.

Lemma accesses_block_image (x y : Z) (a : ndarray) :
  accesses self (block_image_trace self x y a)
  = [ RegWrite 0x20 (clamp x 240);
      RegWrite 0x21 (clamp y 320);
      RegWrite 0x50 (clamp x 240);
      RegWrite 0x52 (clamp y 320);
      RegWrite 0x51 (clamp (clamp x 240 + Z.of_nat (shape_width a) - 1) 240);
      RegWrite 0x53 (clamp (clamp y 320 + Z.of_nat (shape_height a) - 1) 320);
      GramWrite (concat (concat (Convert.rgb565 a))) ].
Proof.
  unfold accesses, frames, block_image_trace. cbv zeta.
  rewrite !(frames_from_write_cmd self levels_differ).
  rewrite <- (app_nil_r (write_gram_trace _ _)).
  rewrite (frames_from_write_gram self levels_differ).
  cbn [frames_from].
  repeat (rewrite accesses_from_register;
          [| first [ apply clamp_width_uint16 | apply clamp_height_uint16
                   | unfold uint16; lia ] ..
           | lia ]).
  rewrite accesses_from_stream. reflexivity.
Qed.

Lemma window_block_image (x y : Z) (a : ndarray) :
  window (regfile (accesses self (block_image_trace self x y a)))
  = Some {| win_x0 := clamp x 240;
            win_y0 := clamp y 320;
            win_x1 := clamp (clamp x 240 + Z.of_nat (shape_width a) - 1) 240;
            win_y1 := clamp (clamp y 320 + Z.of_nat (shape_height a) - 1) 320 |}.
Proof.
  rewrite accesses_block_image.
  unfold regfile, window. cbn [foldl store].
  by simplify_map_eq.
Qed.

Lemma block_image_trace_of (x y : Z) (a : ndarray) :
  trace_of (block_image self x y a) = block_image_trace self x y a.
Proof. eapply steady_trace_of, block_image_steady. Qed.

(** The calls of [block_image] raise nothing of their own: an exception
    out of it is a failure of the operating system. *)
Lemma block_image_outcome (x y : Z) (a : ndarray) (fs : list bool) :
  match block_image self x y a fs with
  | (t, _, Ok _) => t = block_image_trace self x y a
  | (_, _, Raise e) => e = OSError
  end.
Proof.
  destruct (block_image self x y a fs) as [[t fs'] [[]|e]] eqn:E.
  - by destruct (steady_returns _ _ _ _ _ _ _ _ (block_image_steady x y a) E)
      as (_ & -> & _).
  - by destruct (steady_raises _ _ _ _ _ _ _ _ (block_image_steady x y a) E)
      as (_ & -> & _).
Qed.

(** C3, amended.  [block_image] never rejects an origin or a buffer: with
    no failure of the operating system it returns, and the address window
    it has programmed starts at the origin clamped into the panel,
    [x0 = clamp(x, 0, 239)], [y0 = clamp(y, 0, 319)], and ends at
    [x1 = clamp(x0 + width - 1, 0, 239)], [y1 = clamp(y0 + height - 1, 0, 319)],
    the end being computed from the clamped start [x0], [y0].  For origin
    (20, 100) and a 200 x 150 buffer the window is (20, 100, 219, 249). *)
Theorem block_image_window (x y : Z) (a : ndarray) (pixels : list (list rgb)) :
  block_image self x y a [] = (trace_of (block_image self x y a), [], Ok tt) /\
  (forall fs, match (block_image self x y a fs).2 with
              | Ok _ => True
              | Raise e => e = OSError
              end) /\
  window (regfile (accesses self (trace_of (block_image self x y a))))
  = Some {| win_x0 := clamp x 240;
            win_y0 := clamp y 320;
            win_x1 := clamp (clamp x 240 + Z.of_nat (shape_width a) - 1) 240;
            win_y1 := clamp (clamp y 320 + Z.of_nat (shape_height a) - 1) 320 |} /\
  window (regfile (accesses self
            (trace_of (block_image self 20 100 (NdArray 150 200 pixels)))))
  = Some {| win_x0 := 20; win_y0 := 100; win_x1 := 219; win_y1 := 249 |}.
Proof.
  rewrite !block_image_trace_of. repeat split.
  - apply (steady_healthy _ _ _ _ (block_image_steady x y a)).
  - intros fs. pose proof (block_image_outcome x y a fs) as H.
    by destruct (block_image self x y a fs) as [[t fs'] [[]|e]].
  - apply window_block_image.
  - rewrite window_block_image. reflexivity.
Qed.

(** When the origin lies on the panel the end of the window is the
    requested end, clamped. *)
Lemma block_image_window_on_panel (x y : Z) (a : ndarray) :
  0 <= x <= 239 -> 0 <= y <= 319 ->
  window (regfile (accesses self (trace_of (block_image self x y a))))
  = Some {| win_x0 := x;
            win_y0 := y;
            win_x1 := clamp (x + Z.of_nat (shape_width a) - 1) 240;
            win_y1 := clamp (y + Z.of_nat (shape_height a) - 1) 320 |}.
Proof.
  intros Hx Hy.
  rewrite block_image_trace_of, window_block_image.
  by rewrite (clamp_inside x 240), (clamp_inside y 320) by lia.
Qed.

(** C4, amended.  For origin (-5, 310) and a 50 x 50 buffer the horizontal
    start clamps to 0; the vertical start is min(max(310, 0), 319) = 310
    and the vertical end, 359, clamps to 319, the last row: the window is
    (0, 310, 49, 319) and has ten rows. *)
Theorem block_image_window_bottom_edge (pixels : list (list rgb)) :
  window (regfile (accesses self
            (trace_of (block_image self (-5) 310 (NdArray 50 50 pixels)))))
  = Some {| win_x0 := 0; win_y0 := 310; win_x1 := 49; win_y1 := 319 |} /\
  window_rows {| win_x0 := 0; win_y0 := 310; win_x1 := 49; win_y1 := 319 |}
  = 10.
Proof.
  rewrite block_image_trace_of, window_block_image. split; reflexivity.
Qed.

(** C5, amended.  A [block_image] call makes seven accesses to the
    controller, in this order and with nothing else on the bus: six
    register writes (the GRAM address counter, registers 0x20 and 0x21;
    the window start, 0x50 and 0x52; the window end, 0x51 and 0x53), then
    one stream of pixels into graphics RAM.  The traffic on the wires,
    every SPI transfer and every write to a GPIO line, is exactly the
    traffic of these six register writes followed by that of the stream,
    42 events and nothing before, between or after them; that is fourteen
    frames, and every call that returns has produced exactly the events of
    the fault-free run. *)
Theorem block_image_accesses (x y : Z) (a : ndarray) :
  accesses self (trace_of (block_image self x y a))
  = [ RegWrite 0x20 (clamp x 240);
      RegWrite 0x21 (clamp y 320);
      RegWrite 0x50 (clamp x 240);
      RegWrite 0x52 (clamp y 320);
      RegWrite 0x51 (clamp (clamp x 240 + Z.of_nat (shape_width a) - 1) 240);
      RegWrite 0x53 (clamp (clamp y 320 + Z.of_nat (shape_height a) - 1) 320);
      GramWrite (concat (concat (Convert.rgb565 a))) ] /\
  length (frames self (trace_of (block_image self x y a))) = 14%nat /\
  (forall fs, match block_image self x y a fs with
              | (t, _, Ok _) => t = trace_of (block_image self x y a)
              | (_, _, Raise e) => e = OSError
              end) /\
  bus (trace_of (block_image self x y a))
  = register_write_bus gpio_cs 0x20 (clamp x 240) ++
    register_write_bus gpio_cs 0x21 (clamp y 320) ++
    register_write_bus gpio_cs 0x50 (clamp x 240) ++
    register_write_bus gpio_cs 0x52 (clamp y 320) ++
    register_write_bus gpio_cs 0x51
      (clamp (clamp x 240 + Z.of_nat (shape_width a) - 1) 240) ++
    register_write_bus gpio_cs 0x53
      (clamp (clamp y 320 + Z.of_nat (shape_height a) - 1) 320) ++
    pixel_stream_bus gpio_cs (concat (concat (Convert.rgb565 a))) /\
  length (bus (trace_of (block_image self x y a))) = 42%nat /\
  length (List.filter is_transfer (trace_of (block_image self x y a)))
  = 14%nat /\
  block_image self x y a []
  = (trace_of (block_image self x y a), [], Ok tt).
Proof.
  rewrite !block_image_trace_of.
  split; [apply accesses_block_image |].
  split.
  { unfold frames, block_image_trace. cbv zeta.
    rewrite !(frames_from_write_cmd self levels_differ).
    rewrite <- (app_nil_r (write_gram_trace _ _)).
    rewrite (frames_from_write_gram self levels_differ). reflexivity. }
  split; [apply block_image_outcome |].
  split; [reflexivity |].
  split; [reflexivity |].
  split; [reflexivity |].
  apply (steady_healthy _ _ _ _ (block_image_steady x y a)).
Qed.

End Driver.

(** *** Requests on which the window is not the requested rectangle *)

(** The end of the window is not the clamped requested end: from origin
    (-5, 0) a 50 x 50 buffer gets the columns 0..49, not 0..44. *)
Lemma window_end_from_clamped_start :
  window (regfile (accesses default_self
            (trace_of (block_image default_self (-5) 0 (black 50 50)))))
  <> Some {| win_x0 := clamp (-5) 240;
             win_y0 := clamp 0 320;
             win_x1 := clamp (-5 + 50 - 1) 240;
             win_y1 := clamp (0 + 50 - 1) 320 |}.
Proof.
  unfold default_self.
  rewrite block_image_trace_of, window_block_image.
  cbn. intros E. inversion E.
Qed.

(** From origin (-5, 310) the window of a 50 x 50 buffer does not start at
    row 319 and is not one row high. *)
Lemma bottom_edge_window_not_degenerate :
  ~ exists w : AddressWindow,
      window (regfile (accesses default_self
                (trace_of (block_image default_self (-5) 310 (black 50 50)))))
      = Some w /\
      win_x0 w = 0 /\ win_y1 w = 319 /\ win_y0 w = 319 /\ window_rows w = 1.
Proof.
  intros (w & Hw & _ & _ & Hy0 & _).
  unfold default_self in Hw.
  rewrite block_image_trace_of, window_block_image in Hw.
  inversion Hw; subst w. vm_compute in Hy0. discriminate Hy0.
Qed.

(** A call does not make four register writes and a stream: here it makes
    six register writes. *)
Lemma block_image_not_four_writes :
  ~ exists a1 v1 a2 v2 a3 v3 a4 v4 px,
      accesses default_self
        (trace_of (block_image default_self 0 0 (black 240 320)))
      = [ RegWrite a1 v1; RegWrite a2 v2; RegWrite a3 v3; RegWrite a4 v4;
          GramWrite px ].
Proof.
  intros (a1 & v1 & a2 & v2 & a3 & v3 & a4 & v4 & px & H).
  unfold default_self in H.
  rewrite block_image_trace_of, accesses_block_image in H.
  discriminate H.
Qed.

(** ** The frames of the register link *)

Lemma length_concat_sum {A} (l : list (list A)) :
  length (concat l) = list_sum (map length l).
Proof.
  induction l as [|x l IH]; [reflexivity |].
  cbn [concat map list_sum]. by rewrite length_app, IH.
Qed.

Section Link.

Variables spibus spidevice hz : Z.
Variables gpio_cs gpio_rst : string.

#[local] Abbreviation self := (attributes spibus spidevice hz gpio_cs gpio_rst).

Lemma write_cmd_outcome (regaddr data16 : Z) (fs : list bool) :
  uint16 regaddr -> uint16 data16 ->
  match write_cmd self regaddr data16 fs with
  | (t, _, Ok _) => t = write_cmd_trace self regaddr data16
  | (_, _, Raise e) => e = OSError
  end.
Proof.
  intros Ha Hd.
  pose proof (write_cmd_steady self regaddr data16 Ha Hd) as Hs.
  destruct (write_cmd self regaddr data16 fs) as [[t fs'] [[]|e]] eqn:E.
  - by destruct (steady_returns _ _ _ _ _ _ _ _ Hs E) as (_ & -> & _).
  - by destruct (steady_raises _ _ _ _ _ _ _ _ Hs E) as (_ & -> & _).
Qed.

(** C6.  For a 16-bit register address and a 16-bit value, [write_cmd]
    puts on the bus, between the opening and the closing of the SPI
    device, exactly: chip-select active, the three bytes 0x70, high byte
    and low byte of the address, chip-select inactive, chip-select active,
    the three bytes 0x72, high byte and low byte of the value, chip-select
    inactive.  The controller receives these two frames and nothing else;
    the bytes are the big-endian digits of the address and of the value;
    every call that returns has done exactly this. *)
Theorem write_cmd_two_frames (regaddr data16 : Z)
  (Haddr : uint16 regaddr) (Hdata : uint16 data16) :
  write_cmd self regaddr data16 []
  = (trace_of (write_cmd self regaddr data16), [], Ok tt) /\
  bus (trace_of (write_cmd self regaddr data16))
  = [ FileWrite gpio_cs "0";
      SpiWriteBytes [0x70; regaddr / 256; regaddr mod 256];
      FileWrite gpio_cs "1";
      FileWrite gpio_cs "0";
      SpiWriteBytes [0x72; data16 / 256; data16 mod 256];
      FileWrite gpio_cs "1" ] /\
  frames self (trace_of (write_cmd self regaddr data16))
  = [ [0x70; regaddr / 256; regaddr mod 256];
      [0x72; data16 / 256; data16 mod 256] ] /\
  (byte_range (regaddr / 256) /\ byte_range (regaddr mod 256) /\
   regaddr / 256 * 256 + regaddr mod 256 = regaddr) /\
  (byte_range (data16 / 256) /\ byte_range (data16 mod 256) /\
   data16 / 256 * 256 + data16 mod 256 = data16) /\
  (forall fs, match write_cmd self regaddr data16 fs with
              | (t, _, Ok _) => t = trace_of (write_cmd self regaddr data16)
              | (_, _, Raise e) => e = OSError
              end).
Proof.
  pose proof (write_cmd_steady self regaddr data16 Haddr Hdata) as Hs.
  rewrite !(steady_trace_of _ _ _ _ Hs).
  split; [apply (steady_healthy _ _ _ _ Hs) |].
  split; [reflexivity |].
  split.
  { unfold frames.
    rewrite <- (app_nil_r (write_cmd_trace _ _ _)).
    by rewrite (frames_from_write_cmd self (levels_differ _ _ _ _ _)). }
  split; [by apply big_endian_digits |].
  split; [by apply big_endian_digits |].
  intros fs. by apply write_cmd_outcome.
Qed.

(** Outside the 16-bit range [to_bytes] raises: nothing is sent. *)
Lemma write_cmd_overflow (regaddr data16 : Z) :
  ~ uint16 regaddr ->
  (write_cmd self regaddr data16 []).2 = Raise OverflowError.
Proof.
  intros Ha. unfold write_cmd.
  rewrite (to_bytes_overflow _ Ha). reflexivity.
Qed.

Lemma write_gram_outcome (image_array : list (list (list Z))) (fs : list bool) :
  match write_gram self image_array fs with
  | (t, _, Ok _) => t = write_gram_trace self (concat (concat image_array))
  | (_, _, Raise e) => e = OSError
  end.
Proof.
  pose proof (write_gram_steady self image_array) as Hs.
  destruct (write_gram self image_array fs) as [[t fs'] [[]|e]] eqn:E.
  - by destruct (steady_returns _ _ _ _ _ _ _ _ Hs E) as (_ & -> & _).
  - by destruct (steady_raises _ _ _ _ _ _ _ _ Hs E) as (_ & -> & _).
Qed.

(** C7.  For every packed buffer, [write_gram] puts on the bus exactly:
    chip-select active, the three bytes 0x70, 0x00, 0x22, chip-select
    inactive, chip-select active, one transfer made of 0x72 and then all
    the bytes of the buffer, row after row and pixel after pixel,
    chip-select inactive.  The controller receives two frames; the second
    is one byte longer than the buffer; and the buffer [block_image] hands
    over is the two bytes of each pixel, in the order of the image. *)
Theorem write_gram_two_frames (image_array : list (list (list Z)))
  (a : ndarray) :
  write_gram self image_array []
  = (trace_of (write_gram self image_array), [], Ok tt) /\
  bus (trace_of (write_gram self image_array))
  = [ FileWrite gpio_cs "0";
      SpiWriteBytes [0x70; 0x00; 0x22];
      FileWrite gpio_cs "1";
      FileWrite gpio_cs "0";
      SpiWriteBytes2 (0x72 :: concat (concat image_array));
      FileWrite gpio_cs "1" ] /\
  frames self (trace_of (write_gram self image_array))
  = [ [0x70; 0x00; 0x22]; 0x72 :: concat (concat image_array) ] /\
  length (0x72 :: concat (concat image_array))
  = S (list_sum (map (fun row => list_sum (map length row)) image_array)) /\
  concat (concat (Convert.rgb565 a))
  = concat (map (fun row => concat (map Convert.pack row)) (rows a)) /\
  (forall fs, match write_gram self image_array fs with
              | (t, _, Ok _) => t = trace_of (write_gram self image_array)
              | (_, _, Raise e) => e = OSError
              end).
Proof.
  pose proof (write_gram_steady self image_array) as Hs.
  rewrite !(steady_trace_of _ _ _ _ Hs).
  split; [apply (steady_healthy _ _ _ _ Hs) |].
  split; [reflexivity |].
  split.
  { unfold frames.
    rewrite <- (app_nil_r (write_gram_trace _ _)).
    by rewrite (frames_from_write_gram self (levels_differ _ _ _ _ _)). }
  split.
  { clear Hs. cbn [length]. f_equal.
    induction image_array as [|row arr IH]; [reflexivity |].
    cbn [concat map].
    rewrite concat_app, length_app, IH, length_concat_sum. reflexivity. }
  split.
  { rewrite rgb565_pixelwise.
    induction (rows a) as [|row rs IH]; [reflexivity |].
    cbn [map concat]. by rewrite concat_app, IH. }
  intros fs. apply write_gram_outcome.
Qed.

End Link.

(** C8.  [image] is [block_image] at the origin: for every driver object,
    every buffer and every behaviour of the operating system the two calls
    produce the same events, leave the same schedule and end the same way;
    in particular the traffic on the bus is the same. *)
Theorem image_is_block_image_at_origin (self : Ili9328Spi) (buffer : ndarray)
  (fs : list bool) :
  image self buffer fs = block_image self 0 0 buffer fs /\
  bus (image self buffer fs).1.1 = bus (block_image self 0 0 buffer fs).1.1.
Proof. split; reflexivity. Qed.

(** ** Construction *)

Lemma raises_lift {A} (e : exn) : raises (lift (A := A) (Raise e)).
Proof. intros fs. by exists e. Qed.

Lemma raises_bind_l {A B} (m : M A) (k : A -> M B) :
  raises m -> raises (m ≫= k).
Proof.
  intros Hm fs. destruct (Hm fs) as [e He].
  unfold mbind, M_bind.
  destruct (m fs) as [[t fs'] [a|e']]; [discriminate |].
  by exists e'.
Qed.

Lemma raises_bind_r {A B} (m : M A) (k : A -> M B) :
  (forall a, raises (k a)) -> raises (m ≫= k).
Proof.
  intros Hk fs. unfold mbind, M_bind.
  destruct (m fs) as [[t fs'] [a|e']]; [| by exists e'].
  destruct (Hk a fs') as [e He].
  destruct (k a fs') as [[t2 fs2] r]. by exists e.
Qed.

Lemma raises_with_open {A} (path : string) (body : M A) :
  raises body -> raises (with_open path body).
Proof.
  intros Hb fs. unfold with_open.
  destruct (syscall (FileOpen path) fs) as [[t0 fs0] [[]|e0]]; [| by exists e0].
  destruct (Hb fs0) as [e He].
  destruct (body fs0) as [[t1 fs1] r]. by exists e.
Qed.

Lemma write_cmd_rejects (self : Ili9328Spi) (regaddr data16 : Z) :
  ~ (uint16 regaddr /\ uint16 data16) -> raises (write_cmd self regaddr data16).
Proof.
  intros Hn. unfold write_cmd.
  do 3 (apply raises_bind_r; intros _).
  apply raises_bind_l, raises_with_open.
  apply raises_bind_r; intros _.
  destruct (decide (0 <= regaddr < 65536)) as [Ha|Ha].
  - assert (Hd : ~ uint16 data16) by (intros Hd; by apply Hn).
    rewrite (to_bytes_overflow _ Hd).
    do 4 (apply raises_bind_r; intros ?).
    apply raises_bind_l, raises_lift.
  - rewrite (to_bytes_overflow _ Ha).
    apply raises_bind_l, raises_lift.
Qed.

Section Construction.

Variables spibus spidevice hz : Z.
Variables gpio_cs gpio_rst : string.

#[local] Abbreviation self := (attributes spibus spidevice hz gpio_cs gpio_rst).

Ltac init_chain :=
  repeat first
    [ apply write_cmd_steady; unfold uint16; lia
    | apply steady_syscall
    | apply steady_emit
    | apply steady_ret
    | eapply steady_with_open
    | eapply steady_bind ].

(** The initialization makes 545 fallible calls.  Its fault-free run sets
    chip-select inactive before anything else, pulses the reset line, and
    then makes its register writes; the levels written to chip-select are
    those of the first write, those of the reset pulse when the two lines
    are one and the same file, and the four of each of the 49 register
    writes. *)
Lemma init_ili9328_shape :
  exists T T',
    steady (init_ili9328 self) 545 T tt /\
    T = FileOpen gpio_cs :: FileWrite gpio_cs "1" :: T' /\
    cs_writes self T
    = "1" :: (if decide (gpio_rst = gpio_cs) then ["1"; "0"; "1"] else [])
          ++ concat (replicate 49 ["0"; "1"; "0"; "1"]) /\
    accesses self T = init_registers.
Proof.
  eexists. eexists. split; [| split; [| split]].
  - unfold init_ili9328.
    eapply steady_cast; [init_chain | reflexivity | reflexivity].
  - cbn [app]. reflexivity.
  - rewrite !cs_writes_app, !cs_writes_write_cmd.
    unfold cs_writes.
    cbn [omap list_omap cs_write app PIN_ACTIVE PIN_INACTIVE attributes
         spi_cs_pin reset_pin].
    rewrite !decide_True by reflexivity.
    destruct (decide (gpio_rst = gpio_cs)); reflexivity.
  - unfold accesses, frames.
    rewrite <- (app_nil_r (write_cmd_trace self 0x0007 0x0133)).
    match goal with
    | |- context [write_cmd_trace self 0x0001 0x0100 ++ ?r] =>
        remember (write_cmd_trace self 0x0001 0x0100 ++ r) as rest eqn:Hrest
    end.
    cbn [app frames_from PIN_ACTIVE PIN_INACTIVE attributes spi_cs_pin
         reset_pin].
    rewrite !(decide_True (P := gpio_cs = gpio_cs)) by reflexivity.
    rewrite !(decide_False (P := "1" = "0")) by discriminate.
    rewrite ?(decide_True (P := "0" = "0")) by reflexivity.
    transitivity (accesses_from 0 (frames_from self None rest));
      [by destruct (decide (gpio_rst = gpio_cs)) |].
    subst rest. cbn [app].
    repeat first
      [ rewrite (accesses_write_cmd_step self (levels_differ _ _ _ _ _))
          by (unfold uint16; lia)
      | rewrite frames_from_sleep ].
    reflexivity.
Qed.

Lemma init_ili9328_steady :
  steady (init_ili9328 self) 545 (trace_of (init_ili9328 self)) tt.
Proof.
  destruct init_ili9328_shape as (T & T' & Hs & _ & _ & _).
  by rewrite (steady_trace_of _ _ _ _ Hs).
Qed.

Lemma init_ili9328_accesses :
  accesses self (trace_of (init_ili9328 self)) = init_registers.
Proof.
  destruct init_ili9328_shape as (T & T' & Hs & _ & _ & Hacc).
  by rewrite (steady_trace_of _ _ _ _ Hs).
Qed.

Lemma construction_steady :
  steady (__init__ spibus spidevice hz gpio_cs gpio_rst) 545
         (trace_of (init_ili9328 self)) self.
Proof.
  unfold __init__. cbv zeta.
  eapply steady_cast.
  - eapply steady_bind; [apply init_ili9328_steady | apply steady_ret].
  - reflexivity.
  - apply app_nil_r.
Qed.

Lemma construction_trace_of :
  trace_of (__init__ spibus spidevice hz gpio_cs gpio_rst)
  = trace_of (init_ili9328 self).
Proof. apply (steady_trace_of _ _ _ _ construction_steady). Qed.

(** C9, amended.  Construction runs [init_ili9328] once: its fault-free
    events are those of one run of the sequence, in which the controller
    receives the 49 register writes of the sequence, each once and in
    order, in 98 SPI transfers.  It returns the driver object exactly when
    none of its 545 calls to the operating system fails.  When one fails,
    construction raises that [OSError], no driver is returned, and the
    traffic that reached the bus is a prefix of the fault-free traffic:
    nothing after the failure is sent.  The object keeps no record of the
    initialization: [block_image] on the attributes that [__init__] had
    assigned makes no check and, with no further failure, returns. *)
Theorem construction_all_or_nothing (fs : list bool) (x y : Z) (a : ndarray) :
  trace_of (__init__ spibus spidevice hz gpio_cs gpio_rst)
  = trace_of (init_ili9328 self) /\
  accesses self (trace_of (__init__ spibus spidevice hz gpio_cs gpio_rst))
  = init_registers /\
  length (List.filter is_transfer
            (trace_of (__init__ spibus spidevice hz gpio_cs gpio_rst)))
  = 98%nat /\
  (if has_fault 545 fs
   then exists t fs',
          __init__ spibus spidevice hz gpio_cs gpio_rst fs
          = (t, fs', Raise OSError) /\
          bus t `prefix_of`
            bus (trace_of (__init__ spibus spidevice hz gpio_cs gpio_rst))
   else __init__ spibus spidevice hz gpio_cs gpio_rst fs
        = (trace_of (__init__ spibus spidevice hz gpio_cs gpio_rst),
           drop 545 fs, Ok self)) /\
  block_image self x y a []
  = (trace_of (block_image self x y a), [], Ok tt).
Proof.
  split; [apply construction_trace_of |].
  split; [rewrite construction_trace_of; apply init_ili9328_accesses |].
  split; [vm_compute; reflexivity |].
  split.
  - rewrite construction_trace_of. apply construction_steady.
  - rewrite block_image_trace_of.
    apply (steady_healthy _ _ _ _ (block_image_steady _ _ _ _ _ x y a)).
Qed.

(** *** Chip-select *)

Lemma cs_writes_block_image (x y : Z) (a : ndarray) :
  cs_writes self (block_image_trace self x y a)
  = concat (replicate 7 ["0"; "1"; "0"; "1"]).
Proof.
  unfold block_image_trace. cbv zeta.
  by rewrite !cs_writes_app, !cs_writes_write_cmd, cs_writes_write_gram.
Qed.

Lemma perform_steady (op : operation) :
  exists n T,
    steady (perform spibus spidevice hz gpio_cs gpio_rst op) n T tt /\
    (forall before, cs_level self before T = "1") /\
    paired "0" "1" (cs_writes self T) = true /\
    match op with
    | Construct => exists T', T = FileOpen gpio_cs :: FileWrite gpio_cs "1" :: T'
    | _ => True
    end.
Proof.
  destruct op as [|buffer|x y buffer].
  - destruct init_ili9328_shape as (T & T' & Hs & Hhead & Hcs & _).
    exists 545%nat, T. split; [| split; [| split]].
    + unfold perform, __init__. cbv zeta.
      eapply steady_cast.
      * eapply steady_bind; [| apply steady_ret].
        eapply steady_bind; [exact Hs | apply steady_ret].
      * reflexivity.
      * by rewrite !app_nil_r.
    + intros before. unfold cs_level. rewrite Hcs.
      destruct (decide (gpio_rst = gpio_cs)); reflexivity.
    + rewrite Hcs. destruct (decide (gpio_rst = gpio_cs)); reflexivity.
    + by exists T'.
  - exists 77%nat, (block_image_trace self 0 0 buffer).
    split; [apply block_image_steady |].
    unfold cs_level. rewrite cs_writes_block_image. by repeat split.
  - exists 77%nat, (block_image_trace self x y buffer).
    split; [apply block_image_steady |].
    unfold cs_level. rewrite cs_writes_block_image. by repeat split.
Qed.

(** C10.  Whenever construction, [image] or [block_image] returns, the
    chip-select line is inactive, whatever its level was before; every
    write of the active level to the line has been followed at once by a
    write of the inactive level; the same holds of every [write_cmd] and
    [write_gram] that returns, which assert and release the line twice;
    and construction has opened the line's file and written the inactive
    level before any other event. *)
Theorem chip_select_released (op : operation) (fs : list bool)
  (t : list event) (fs' : list bool)
  (Hret : perform spibus spidevice hz gpio_cs gpio_rst op fs = (t, fs', Ok tt)) :
  (forall before, cs_level self before t = "1") /\
  paired "0" "1" (cs_writes self t) = true /\
  match op with
  | Construct => exists t', t = FileOpen gpio_cs :: FileWrite gpio_cs "1" :: t'
  | _ => True
  end /\
  (forall regaddr data16 fs0,
     match write_cmd self regaddr data16 fs0 with
     | (t0, _, Ok _) => cs_writes self t0 = ["0"; "1"; "0"; "1"]
     | _ => True
     end) /\
  (forall image_array fs0,
     match write_gram self image_array fs0 with
     | (t0, _, Ok _) => cs_writes self t0 = ["0"; "1"; "0"; "1"]
     | _ => True
     end).
Proof.
  destruct (perform_steady op) as (n & T & Hs & Hlevel & Hpaired & Hfirst).
  destruct (steady_returns _ _ _ _ _ _ _ _ Hs Hret) as (_ & -> & _).
  split; [exact Hlevel |].
  split; [exact Hpaired |].
  split; [exact Hfirst |].
  split.
  - intros regaddr data16 fs0.
    destruct (decide (uint16 regaddr /\ uint16 data16)) as [[Ha Hd]|Hn].
    + pose proof (write_cmd_outcome spibus spidevice hz gpio_cs gpio_rst
                    regaddr data16 fs0 Ha Hd) as H.
      destruct (write_cmd self regaddr data16 fs0) as [[t0 ?] [[]|e]]; [| done].
      subst t0. apply cs_writes_write_cmd.
    + destruct (write_cmd_rejects self regaddr data16 Hn fs0) as [e He].
      destruct (write_cmd self regaddr data16 fs0) as [[t0 ?] [[]|e']];
        [discriminate | done].
  - intros image_array fs0.
    pose proof (write_gram_outcome spibus spidevice hz gpio_cs gpio_rst
                  image_array fs0) as H.
    destruct (write_gram self image_array fs0) as [[t0 ?] [[]|e]]; [| done].
    subst t0. apply cs_writes_write_gram.
Qed.

End Construction.

(** ** The theorems at sample inputs *)

Lemma write_cmd_two_frames_witness :
  uint16 0x50 /\ uint16 239 /\
  frames default_self (trace_of (write_cmd default_self 0x50 239))
  = [[0x70; 0x00; 0x50]; [0x72; 0x00; 0xEF]].
Proof.
  assert (Ha : uint16 0x50) by (unfold uint16; lia).
  assert (Hd : uint16 239) by (unfold uint16; lia).
  split; [exact Ha |]. split; [exact Hd |].
  exact (proj1 (proj2 (proj2
           (write_cmd_two_frames 1 0 (500 * 1000) "/dev/null" "/dev/null"
              0x50 239 Ha Hd)))).
Defined.

Lemma chip_select_released_witness :
  perform 1 0 (500 * 1000) "/dev/null" "/dev/null"
    (DrawRegion 20 100 (black 2 1)) []
  = (block_image_trace default_self 20 100 (black 2 1), [], Ok tt) /\
  cs_level default_self "0" (block_image_trace default_self 20 100 (black 2 1))
  = "1".
Proof.
  assert (Hret : perform 1 0 (500 * 1000) "/dev/null" "/dev/null"
                   (DrawRegion 20 100 (black 2 1)) []
                 = (block_image_trace default_self 20 100 (black 2 1), [], Ok tt))
    by reflexivity.
  split; [exact Hret |].
  exact (proj1 (chip_select_released 1 0 (500 * 1000) "/dev/null" "/dev/null"
                  (DrawRegion 20 100 (black 2 1)) [] _ [] Hret) "0").
Defined.

(** A construction that fails at its 301st call to the operating system,
    after 53 SPI transfers, raises [OSError]; the draw call that follows on
    the same object is not refused: it returns. *)
Lemma draw_after_failed_construction :
  (__init__ 1 0 (500 * 1000) "/dev/null" "/dev/null"
     (replicate 300 false ++ [true])).2 = Raise OSError /\
  length (List.filter is_transfer
            (__init__ 1 0 (500 * 1000) "/dev/null" "/dev/null"
               (replicate 300 false ++ [true])).1.1) = 53%nat /\
  (block_image default_self 0 0 (black 2 2)
     (__init__ 1 0 (500 * 1000) "/dev/null" "/dev/null"
        (replicate 300 false ++ [true])).1.2).2 = Ok tt.
Proof. vm_compute. repeat split. Qed.

(** * Further properties of the driver *)

(** ** [write_cmd] outside its happy path *)

Section WriteCmdErrors.

Variable self : Ili9328Spi.

(** X1.  A register address outside 0..65535 makes [write_cmd] raise
    [OverflowError] (when the operating system itself does not fail): by
    then it has opened the SPI device and asserted chip-select, and it
    stops there.  No byte has been sent, the chip-select file has been
    closed with the line still active, and the SPI device has not been
    closed. *)
Theorem write_cmd_bad_address (regaddr data16 : Z) (before : string)
  (Haddr : ~ uint16 regaddr) :
  write_cmd self regaddr data16 []
  = ([ SpiOpen (spibus_num self) (spidevice_num self);
       SpiMaxSpeedHz (spi_speed_hz self);
       SpiMode 3;
       FileOpen (spi_cs_pin self);
       FileWrite (spi_cs_pin self) (PIN_ACTIVE self);
       FileClose (spi_cs_pin self) ],
     [], Raise OverflowError) /\
  cs_level self before (trace_of (write_cmd self regaddr data16))
  = PIN_ACTIVE self /\
  count is_transfer (trace_of (write_cmd self regaddr data16)) = 0%nat /\
  count is_spi_close (trace_of (write_cmd self regaddr data16)) = 0%nat.
Proof.
  match goal with |- ?run = ?res /\ _ => assert (Hrun : run = res) end.
  { unfold write_cmd. rewrite (to_bytes_overflow _ Haddr). reflexivity. }
  unfold trace_of. rewrite Hrun. unfold cs_level, cs_writes. cbn.
  rewrite decide_True by reflexivity. by repeat split.
Qed.

(** X2.  A value outside 0..65535, with a good address, makes [write_cmd]
    raise [OverflowError] after the address frame: the controller has
    received the index frame and nothing else, chip-select has been
    asserted again and is left active, and the SPI device is not closed. *)
Theorem write_cmd_bad_value (regaddr data16 : Z) (before : string)
  (Haddr : uint16 regaddr) (Hdata : ~ uint16 data16)
  (Hlevels : PIN_ACTIVE self <> PIN_INACTIVE self) :
  write_cmd self regaddr data16 []
  = ([ SpiOpen (spibus_num self) (spidevice_num self);
       SpiMaxSpeedHz (spi_speed_hz self);
       SpiMode 3;
       FileOpen (spi_cs_pin self);
       FileWrite (spi_cs_pin self) (PIN_ACTIVE self);
       SpiWriteBytes [0x70; regaddr / 256; regaddr mod 256];
       FileWrite (spi_cs_pin self) (PIN_INACTIVE self);
       FileWrite (spi_cs_pin self) (PIN_ACTIVE self);
       FileClose (spi_cs_pin self) ],
     [], Raise OverflowError) /\
  frames self (trace_of (write_cmd self regaddr data16))
  = [[0x70; regaddr / 256; regaddr mod 256]] /\
  accesses self (trace_of (write_cmd self regaddr data16)) = [] /\
  cs_level self before (trace_of (write_cmd self regaddr data16))
  = PIN_ACTIVE self /\
  count is_spi_close (trace_of (write_cmd self regaddr data16)) = 0%nat.
Proof.
  assert (Hne : PIN_INACTIVE self <> PIN_ACTIVE self) by congruence.
  match goal with |- ?run = ?res /\ _ => assert (Hrun : run = res) end.
  { unfold write_cmd.
    rewrite (to_bytes_2 _ Haddr), (to_bytes_overflow _ Hdata). reflexivity. }
  unfold accesses, frames, trace_of. rewrite Hrun.
  unfold cs_level, cs_writes. cbn.
  repeat first
    [ rewrite decide_True by reflexivity
    | rewrite (decide_False (P := PIN_INACTIVE self = PIN_ACTIVE self))
        by done ].
  cbn. by repeat split.
Qed.

(** X3.  [write_cmd] returns exactly when both arguments are 16-bit
    values and none of its eleven calls to the operating system fails. *)
Theorem write_cmd_returns_iff (regaddr data16 : Z) (fs : list bool) :
  (exists t fs', write_cmd self regaddr data16 fs = (t, fs', Ok tt))
  <-> uint16 regaddr /\ uint16 data16 /\ has_fault 11 fs = false.
Proof.
  split.
  - intros (t & fs' & Hrun).
    destruct (decide (uint16 regaddr /\ uint16 data16)) as [[Ha Hd]|Hn].
    + split; [exact Ha |]. split; [exact Hd |].
      apply (steady_returns _ _ _ _ _ _ _ _
               (write_cmd_steady self regaddr data16 Ha Hd) Hrun).
    + destruct (write_cmd_rejects self regaddr data16 Hn fs) as [e He].
      rewrite Hrun in He. discriminate He.
  - intros (Ha & Hd & Hfs).
    pose proof (write_cmd_steady self regaddr data16 Ha Hd fs) as H.
    rewrite Hfs in H. eauto.
Qed.

(** X4.  When the operating system fails while chip-select is asserted
    (at the SPI transfer of either frame, or at the write that should
    release the line after it: the sixth, seventh, ninth or tenth call),
    [write_cmd] raises [OSError] and cleans nothing up: the line is left
    active and the SPI device is left open; only the chip-select file is
    closed. *)
Theorem write_cmd_failure_holds_select (regaddr data16 : Z) (k : nat)
  (rest : list bool) (before : string)
  (Haddr : uint16 regaddr) (Hdata : uint16 data16)
  (Hk : k = 5%nat \/ k = 6%nat \/ k = 8%nat \/ k = 9%nat)
  (Hlevels : PIN_ACTIVE self <> PIN_INACTIVE self) :
  exists t,
    write_cmd self regaddr data16 (replicate k false ++ true :: rest)
    = (t, rest, Raise OSError) /\
    cs_level self before t = PIN_ACTIVE self /\
    count is_spi_open t = 1%nat /\
    count is_spi_close t = 0%nat /\
    count is_file_open t = 1%nat /\
    count is_file_close t = 1%nat.
Proof.
  unfold write_cmd. rewrite (to_bytes_2 _ Haddr), (to_bytes_2 _ Hdata).
  destruct Hk as [-> | [-> | [-> | ->]]];
    (eexists; split; [reflexivity |]);
    unfold cs_level, cs_writes; cbn;
    rewrite !decide_True by reflexivity; by repeat split.
Qed.

End WriteCmdErrors.

(** ** What a call leaves open *)

Section Tidy.

Lemma count_app (kind : event -> bool) (t1 t2 : list event) :
  count kind (t1 ++ t2) = (count kind t1 + count kind t2)%nat.
Proof. unfold count. by rewrite List.filter_app, length_app. Qed.

Lemma tidy_bind {A B} (m : M A) (k : A -> M B) (fs : list bool) :
  (forall fs0, tidy (m fs0)) -> (forall a fs0, tidy (k a fs0)) ->
  tidy ((m ≫= k) fs).
Proof.
  intros Hm Hk. specialize (Hm fs). unfold mbind, M_bind.
  destruct (m fs) as [[t1 fs1] [a|e]]; [| exact Hm].
  specialize (Hk a fs1). destruct (k a fs1) as [[t2 fs2] r].
  unfold tidy in *. cbn [fst snd] in *.
  destruct Hm as [Hf1 Hs1], Hk as [Hf2 Hs2].
  rewrite !count_app. split; [lia |].
  destruct r; lia.
Qed.

Lemma tidy_emit_sleep (millis : Z) (fs : list bool) :
  tidy (emit (Sleep millis) fs).
Proof. by split. Qed.

Lemma tidy_ret {A} (a : A) (fs : list bool) : tidy (mret (M := M) a fs).
Proof. by split. Qed.

Ltac by_schedule fs :=
  do 12 (try (destruct fs as [|[] fs];
              [ vm_compute; repeat split; lia
              | vm_compute; repeat split; lia
              | ]));
  vm_compute; repeat split; lia.

Lemma write_cmd_tidy (self : Ili9328Spi) (regaddr data16 : Z)
  (fs : list bool) :
  tidy (write_cmd self regaddr data16 fs).
Proof.
  unfold write_cmd.
  destruct (decide (uint16 regaddr)) as [Ha|Ha];
    [ rewrite (to_bytes_2 _ Ha) | rewrite (to_bytes_overflow _ Ha) ];
    (destruct (decide (uint16 data16)) as [Hd|Hd];
     [ rewrite (to_bytes_2 _ Hd) | rewrite (to_bytes_overflow _ Hd) ]);
    clear; by_schedule fs.
Qed.

Lemma write_gram_tidy (self : Ili9328Spi)
  (image_array : list (list (list Z))) (fs : list bool) :
  tidy (write_gram self image_array fs).
Proof.
  unfold write_gram.
  generalize (Numpy.insert0 image_array 114). intros bytes.
  by_schedule fs.
Qed.

Lemma block_image_tidy (self : Ili9328Spi) (x y : Z) (a : ndarray)
  (fs : list bool) :
  tidy (block_image self x y a fs).
Proof.
  unfold block_image. cbv zeta.
  repeat (apply tidy_bind; [intros; apply write_cmd_tidy | intros _ ?]).
  apply write_gram_tidy.
Qed.

Lemma init_ili9328_tidy (self : Ili9328Spi) (fs : list bool) :
  tidy (init_ili9328 self fs).
Proof.
  unfold init_ili9328.
  apply tidy_bind;
    [clear fs; intros fs; by_schedule fs | clear fs; intros _ fs].
  apply tidy_bind;
    [clear fs; intros fs; by_schedule fs | clear fs; intros _ fs].
  repeat first
    [ apply write_cmd_tidy
    | apply tidy_bind;
      [ intros; first [apply write_cmd_tidy | apply tidy_emit_sleep]
      | intros _ ? ] ].
Qed.

(** X5.  Whatever the operating system does, and whether the call
    returns or raises, construction, [image] and [block_image] close
    every file they have opened (the GPIO files are used under [with]);
    they close the SPI device as often as they open it when they return,
    and leave it open at most once when they raise ([spi.close()] is not
    reached after an exception). *)
Theorem public_calls_tidy (spibus spidevice hz : Z)
  (gpio_cs gpio_rst : string) (op : operation) (fs : list bool) :
  tidy (perform spibus spidevice hz gpio_cs gpio_rst op fs).
Proof.
  destruct op as [|buffer|x y buffer]; unfold perform; cbv zeta.
  - apply tidy_bind; [| intros; apply tidy_ret].
    clear fs. intros fs. unfold __init__. cbv zeta.
    apply tidy_bind; [intros; apply init_ili9328_tidy | intros; apply tidy_ret].
  - apply block_image_tidy.
  - apply block_image_tidy.
Qed.

End Tidy.

(** ** Changing the bus speed *)

Section Speed.

Variable self : Ili9328Spi.
Variable speed : Z.

Ltac each_schedule fs :=
  do 12 (try (destruct fs as [|[] fs]; [reflexivity | reflexivity |]));
  reflexivity.

Lemma run_at_speed_bind {A B} (m m' : M A) (k k' : A -> M B)
  (fs : list bool) :
  (forall fs0, m' fs0 = run_at_speed speed (m fs0)) ->
  (forall a fs0, k' a fs0 = run_at_speed speed (k a fs0)) ->
  (m' ≫= k') fs = run_at_speed speed ((m ≫= k) fs).
Proof.
  intros Hm Hk. unfold mbind, M_bind. rewrite Hm.
  destruct (m fs) as [[t1 fs1] [a|e]]; cbn; [| reflexivity].
  rewrite Hk. destruct (k a fs1) as [[t2 fs2] r].
  unfold run_at_speed. cbn. by rewrite map_app.
Qed.

Lemma write_cmd_at_speed (regaddr data16 : Z) (fs : list bool) :
  write_cmd (set_spi_speed_hz self speed) regaddr data16 fs
  = run_at_speed speed (write_cmd self regaddr data16 fs).
Proof.
  unfold write_cmd.
  destruct (decide (uint16 regaddr)) as [Ha|Ha];
    [ rewrite !(to_bytes_2 _ Ha) | rewrite !(to_bytes_overflow _ Ha) ];
    (destruct (decide (uint16 data16)) as [Hd|Hd];
     [ rewrite !(to_bytes_2 _ Hd) | rewrite !(to_bytes_overflow _ Hd) ]);
    each_schedule fs.
Qed.

Lemma write_gram_at_speed (image_array : list (list (list Z)))
  (fs : list bool) :
  write_gram (set_spi_speed_hz self speed) image_array fs
  = run_at_speed speed (write_gram self image_array fs).
Proof. unfold write_gram. each_schedule fs. Qed.

Lemma block_image_at_speed (x y : Z) (a : ndarray) (fs : list bool) :
  block_image (set_spi_speed_hz self speed) x y a fs
  = run_at_speed speed (block_image self x y a fs).
Proof.
  unfold block_image. cbv zeta.
  repeat (apply run_at_speed_bind;
          [intros; apply write_cmd_at_speed | intros _ ?]).
  apply write_gram_at_speed.
Qed.

(** X6.  [set_spi_speed_hz] changes what the next calls ask of the SPI
    device and nothing else: for every behaviour of the operating system,
    [block_image] and [image] on the updated driver produce the events of
    the old driver with the new speed in every [max_speed_hz] setting,
    and end the same way; the traffic on the wires is the same, and so is
    the drawable size. *)
Theorem set_spi_speed_hz_effect (x y : Z) (a : ndarray) (fs : list bool) :
  block_image (set_spi_speed_hz self speed) x y a fs
  = run_at_speed speed (block_image self x y a fs) /\
  image (set_spi_speed_hz self speed) a fs
  = run_at_speed speed (image self a fs) /\
  bus (block_image (set_spi_speed_hz self speed) x y a fs).1.1
  = bus (block_image self x y a fs).1.1 /\
  Forall (fun e => forall hz0, e = SpiMaxSpeedHz hz0 -> hz0 = speed)
         (block_image (set_spi_speed_hz self speed) x y a fs).1.1 /\
  get_draw_image_size (set_spi_speed_hz self speed)
  = get_draw_image_size self.
Proof.
  split; [apply block_image_at_speed |].
  split; [apply block_image_at_speed |].
  rewrite block_image_at_speed.
  destruct (block_image self x y a fs) as [[t fs'] r].
  unfold run_at_speed. cbn [fst snd].
  split; [| split; [| reflexivity]].
  - induction t as [|e t IH]; [reflexivity |].
    cbn [map]. unfold bus in *. cbn [List.filter].
    destruct e; cbn; by rewrite ?IH.
  - induction t as [|e t IH]; constructor; [| exact IH].
    intros hz0 E. destruct e; cbn in E; congruence.
Qed.

End Speed.

(** ** More on the pixel conversion *)

Section Pixels.
Import Convert.

Lemma truncate565_channels (p : rgb) :
  truncate565 p = (r5 p, g6 p, b5 p).
Proof.
  unfold truncate565, r5, g6, b5.
  by rewrite !Z.shiftr_div_pow2 by lia.
Qed.

Lemma pack_from_truncated (p : rgb) :
  rgb_ok p -> pack p = pack_truncated (truncate565 p).
Proof.
  intros Hp. rewrite truncate565_channels. unfold pack, pack_truncated.
  by rewrite (byte0_arith p Hp), (byte1_arith p Hp).
Qed.

Lemma word_of_pack (p : rgb) :
  rgb_ok p -> word_of (pack p) = Some (rgb565_word p).
Proof.
  intros Hp. destruct (channel_bounds p Hp) as (Hr & Hg & Hb).
  unfold word_of, pack, rgb565_word.
  rewrite (byte0_arith p Hp), (byte1_arith p Hp).
  rewrite !Z.shiftr_div_pow2 by lia.
  change (2 ^ 3) with 8. change (2 ^ 2) with 4.
  fold (r5 p) (g6 p) (b5 p).
  set (r := r5 p) in *. set (g := g6 p) in *. set (b := b5 p) in *.
  rewrite (lor_shifted g b 5) by (change (2 ^ 5) with 32; lia).
  rewrite (lor_shifted r (g * 2 ^ 5 + b) 11)
    by (change (2 ^ 5) with 32; change (2 ^ 11) with 2048; lia).
  change (2 ^ 5) with 32. change (2 ^ 11) with 2048.
  f_equal. Z.div_mod_to_equations. lia.
Qed.

(** X7.  The packed bytes of a pixel, read as one big-endian 16-bit
    number, are the RGB565 word [(R>>3) << 11 | (G>>2) << 5 | (B>>3)]:
    the first byte of each pixel in the stream is the high byte. *)
Theorem rgb565_is_big_endian_word (a : ndarray) (Ha : ndarray_ok a) :
  map (map word_of) (rgb565 a)
  = map (map (fun p => Some (rgb565_word p))) (rows a).
Proof.
  rewrite rgb565_pixelwise, map_map_map.
  apply (map_map_ext_Forall rgb_ok); [apply word_of_pack |].
  by apply ndarray_ok_pixels.
Qed.

(** X8.  The conversion loses the low three, two and three bits of the
    channels and nothing else: two images of 8-bit pixels are packed to
    the same bytes exactly when their pixels agree on [R>>3], [G>>2] and
    [B>>3]. *)
Theorem rgb565_equal_iff_truncations_equal (a b : ndarray)
  (Ha : ndarray_ok a) (Hb : ndarray_ok b) :
  rgb565 a = rgb565 b
  <-> map (map truncate565) (rows a) = map (map truncate565) (rows b).
Proof.
  assert (Hdec : forall c, ndarray_ok c ->
            map (map decode565) (rgb565 c)
            = map (map Some) (map (map truncate565) (rows c))).
  { intros c Hc. rewrite rgb565_pixelwise, !map_map_map.
    apply (map_map_ext_Forall rgb_ok); [apply decode_pack |].
    by apply ndarray_ok_pixels. }
  assert (Hpack : forall c, ndarray_ok c ->
            rgb565 c
            = map (map pack_truncated) (map (map truncate565) (rows c))).
  { intros c Hc. rewrite rgb565_pixelwise, map_map_map.
    apply (map_map_ext_Forall rgb_ok); [apply pack_from_truncated |].
    by apply ndarray_ok_pixels. }
  split.
  - intros E.
    assert (Hinj : forall l1 l2 : list (list (Z * Z * Z)),
               map (map Some) l1 = map (map Some) l2 -> l1 = l2).
    { induction l1 as [|r1 l1 IH]; intros [|r2 l2] H; try discriminate;
        [reflexivity |].
      cbn [map] in H. injection H as Hr Hl. f_equal; [| by apply IH].
      clear -Hr. revert r2 Hr.
      induction r1 as [|x r1 IHr]; intros [|y r2] H; try discriminate;
        [reflexivity |].
      cbn [map] in H. injection H as -> Hr. f_equal. by apply IHr. }
    apply Hinj. rewrite <- !Hdec by assumption. by rewrite E.
  - intros E. by rewrite (Hpack a Ha), (Hpack b Hb), E.
Qed.

End Pixels.

(** ** More on drawing *)

Section Drawing.

Variables spibus spidevice hz : Z.
Variables gpio_cs gpio_rst : string.

#[local] Abbreviation self := (attributes spibus spidevice hz gpio_cs gpio_rst).

Lemma window_of_draw (x y : Z) (a : ndarray) :
  window (regfile (accesses self (trace_of (block_image self x y a))))
  = Some (drawn_window x y a).
Proof. rewrite block_image_trace_of. apply window_block_image. Qed.

Lemma stream_length (a : ndarray) :
  ndarray_ok a ->
  length (concat (concat (Convert.rgb565 a)))
  = (2 * (shape_height a * shape_width a))%nat.
Proof.
  intros [Hh Hrows]. rewrite rgb565_pixelwise, <- Hh. clear Hh.
  induction Hrows as [|row rs [Hw _] _ IH]; [reflexivity |].
  cbn [map concat length]. rewrite concat_app, length_app, IH.
  assert (Hrow : length (concat (map Convert.pack row))
                 = (2 * length row)%nat).
  { clear. induction row as [|p row IH]; [reflexivity |].
    cbn [map concat]. rewrite length_app, IH. cbn [Convert.pack length]. lia. }
  rewrite Hrow, Hw. lia.
Qed.

(** X9.  [block_image] streams the whole buffer, whatever the origin and
    whatever window it has programmed: after the six register writes the
    controller receives in one piece the two bytes of every pixel of the
    image, [2 * height * width] bytes, the same for every origin.  The
    buffer is never cropped to the window. *)
Theorem block_image_streams_whole_buffer (x y : Z) (a : ndarray)
  (Ha : ndarray_ok a) :
  exists regs data,
    accesses self (trace_of (block_image self x y a))
    = regs ++ [GramWrite data] /\
    length regs = 6%nat /\
    data = concat (map (fun row => concat (map Convert.pack row)) (rows a)) /\
    length data = (2 * (shape_height a * shape_width a))%nat.
Proof.
  rewrite block_image_trace_of, accesses_block_image.
  eexists [_; _; _; _; _; _], _. split; [reflexivity |].
  split; [reflexivity |]. split.
  - rewrite rgb565_pixelwise.
    induction (rows a) as [|row rs IH]; [reflexivity |].
    cbn [map concat]. by rewrite concat_app, IH.
  - by apply stream_length.
Qed.

(** X10.  For a buffer with at least one pixel the window that
    [block_image] programs lies in the panel and is well formed
    ([0 <= x0 <= x1 <= 239], [0 <= y0 <= y1 <= 319]); it is never wider or
    higher than the buffer, and it has the width (the height) of the
    buffer exactly when the buffer, placed at the clamped origin, ends
    inside the panel. *)
Theorem block_image_window_fits (x y : Z) (a : ndarray)
  (Hw : (1 <= shape_width a)%nat) (Hh : (1 <= shape_height a)%nat) :
  exists w,
    window (regfile (accesses self (trace_of (block_image self x y a))))
    = Some w /\
    (0 <= win_x0 w <= win_x1 w /\ win_x1 w <= 239) /\
    (0 <= win_y0 w <= win_y1 w /\ win_y1 w <= 319) /\
    window_columns w <= Z.of_nat (shape_width a) /\
    window_rows w <= Z.of_nat (shape_height a) /\
    (window_columns w = Z.of_nat (shape_width a)
     <-> clamp x 240 + Z.of_nat (shape_width a) <= 240) /\
    (window_rows w = Z.of_nat (shape_height a)
     <-> clamp y 320 + Z.of_nat (shape_height a) <= 320).
Proof.
  exists (drawn_window x y a). split; [apply window_of_draw |].
  unfold window_columns, window_rows, drawn_window, clamp.
  cbn [win_x0 win_x1 win_y0 win_y1]. lia.
Qed.

(** X11.  An image of width zero is not refused either: when the clamped
    origin is not the first column the horizontal end is programmed one
    column before the start, and the pixel stream is the start byte 0x72
    alone. *)
Theorem block_image_empty_width (x y : Z) (a : ndarray)
  (Ha : ndarray_ok a) (Hw : shape_width a = 0%nat) (Hx : 1 <= x) :
  block_image self x y a []
  = (trace_of (block_image self x y a), [], Ok tt) /\
  (exists w,
     window (regfile (accesses self (trace_of (block_image self x y a))))
     = Some w /\
     win_x1 w = win_x0 w - 1) /\
  List.last (frames self (trace_of (block_image self x y a))) [] = [0x72].
Proof.
  split; [| split].
  - rewrite block_image_trace_of.
    apply (steady_healthy _ _ _ _ (block_image_steady _ _ _ _ _ x y a)).
  - exists (drawn_window x y a). split; [apply window_of_draw |].
    unfold drawn_window, clamp. cbn [win_x0 win_x1]. rewrite Hw. lia.
  - pose proof (stream_length a Ha) as Hlen. rewrite Hw in Hlen.
    replace (2 * (shape_height a * 0))%nat with 0%nat in Hlen by lia.
    apply nil_length_inv in Hlen.
    rewrite block_image_trace_of.
    unfold frames, block_image_trace. cbv zeta.
    rewrite !(frames_from_write_cmd self (levels_differ _ _ _ _ _)).
    rewrite <- (app_nil_r (write_gram_trace _ _)).
    rewrite (frames_from_write_gram self (levels_differ _ _ _ _ _)).
    rewrite Hlen. reflexivity.
Qed.

(** X12.  [block_image] makes 77 calls to the operating system.  It
    returns exactly when none of them fails; when one fails it raises
    that [OSError], and the traffic that reached the bus is a prefix of
    the traffic of the complete draw: the window may be half programmed
    or the stream cut short, but nothing else is sent. *)
Theorem block_image_all_or_prefix (x y : Z) (a : ndarray) (fs : list bool) :
  if has_fault 77 fs
  then exists t fs',
         block_image self x y a fs = (t, fs', Raise OSError) /\
         bus t `prefix_of` bus (trace_of (block_image self x y a))
  else block_image self x y a fs
       = (trace_of (block_image self x y a), drop 77 fs, Ok tt).
Proof.
  rewrite block_image_trace_of. apply block_image_steady.
Qed.

(** X13.  An origin outside the panel is the clamped origin: for every
    behaviour of the operating system, [block_image] at [(x, y)] does
    exactly what [block_image] at [(clamp x, clamp y)] does.  A negative
    origin moves the image to the edge; it does not cut off its first
    columns or rows. *)
Theorem block_image_at_clamped_origin (x y : Z) (a : ndarray)
  (fs : list bool) :
  block_image self x y a fs
  = block_image self (clamp x 240) (clamp y 320) a fs.
Proof.
  unfold block_image. cbv zeta. cbn [IMAGE_WIDTH IMAGE_HEIGHT attributes].
  replace (Z.min (Z.max (clamp x 240) 0) (240 - 1))
    with (Z.min (Z.max x 0) (240 - 1)) by (unfold clamp; lia).
  replace (Z.min (Z.max (clamp y 320) 0) (320 - 1))
    with (Z.min (Z.max y 0) (320 - 1)) by (unfold clamp; lia).
  reflexivity.
Qed.

End Drawing.

(** ** Sequences of calls *)

Section Sessions.

Variables spibus spidevice hz : Z.
Variables gpio_cs gpio_rst : string.

#[local] Abbreviation self := (attributes spibus spidevice hz gpio_cs gpio_rst).

Ltac session_chain :=
  repeat first
    [ apply write_cmd_steady; unfold uint16; lia
    | apply steady_syscall
    | apply steady_emit
    | apply steady_ret
    | eapply steady_with_open
    | eapply steady_bind ].

(** What the controller receives from a draw does not depend on what it
    received before. *)
Lemma accesses_from_draw index sel (x y : Z) (a : ndarray) rest :
  accesses_from index
    (frames_from self sel (block_image_trace self x y a ++ rest))
  = draw_accesses x y a ++ accesses_from 0x22 (frames_from self None rest).
Proof.
  unfold block_image_trace. cbv zeta. rewrite <- !app_assoc.
  repeat (rewrite (accesses_write_cmd_step self (levels_differ _ _ _ _ _));
          [| first [ apply clamp_width_uint16 | apply clamp_height_uint16
                   | unfold uint16; lia ] ..
           | lia ]).
  rewrite (frames_from_write_gram self (levels_differ _ _ _ _ _)).
  rewrite accesses_from_stream. reflexivity.
Qed.

(** The same for the initialization sequence. *)
Lemma accesses_from_init :
  exists T,
    steady (init_ili9328 self) 545 T tt /\
    forall rest,
      accesses_from 0 (frames_from self None (T ++ rest))
      = init_registers ++ accesses_from 0x0007 (frames_from self None rest).
Proof.
  eexists. split.
  - unfold init_ili9328.
    eapply steady_cast; [session_chain | reflexivity | reflexivity].
  - intros rest. rewrite <- !app_assoc.
    match goal with
    | |- context [write_cmd_trace self 0x0001 0x0100 ++ ?r] =>
        remember (write_cmd_trace self 0x0001 0x0100 ++ r) as tail eqn:Htail
    end.
    cbn [app frames_from PIN_ACTIVE PIN_INACTIVE attributes spi_cs_pin
         reset_pin].
    rewrite !(decide_True (P := gpio_cs = gpio_cs)) by reflexivity.
    rewrite !(decide_False (P := "1" = "0")) by discriminate.
    rewrite ?(decide_True (P := "0" = "0")) by reflexivity.
    transitivity (accesses_from 0 (frames_from self None tail));
      [by destruct (decide (gpio_rst = gpio_cs)) |].
    subst tail. cbn [app].
    repeat first
      [ rewrite (accesses_write_cmd_step self (levels_differ _ _ _ _ _))
          by (unfold uint16; lia)
      | rewrite frames_from_sleep ].
    reflexivity.
Qed.

Lemma accesses_init_then rest :
  accesses_from 0
    (frames_from self None (trace_of (init_ili9328 self) ++ rest))
  = init_registers ++ accesses_from 0x0007 (frames_from self None rest).
Proof.
  destruct accesses_from_init as (T & Hs & Hacc).
  rewrite (steady_trace_of _ _ _ _ Hs). apply Hacc.
Qed.

Lemma regfile_app (l1 l2 : list access) :
  regfile (l1 ++ l2) = foldl store (regfile l1) l2.
Proof. unfold regfile. apply foldl_app. Qed.

(** X14.  After a construction that returns, the controller holds the
    state the draws rely on: the address window is the whole panel,
    (0, 0) to (239, 319), which is the size [get_draw_image_size]
    reports; the GRAM address counter is at (0, 0); the display control
    register holds 0x0133 (display on) and the power control registers
    the values of the second pass.  44 registers have been written. *)
Theorem construction_leaves_panel_ready :
  let regs :=
    regfile (accesses self
               (trace_of (__init__ spibus spidevice hz gpio_cs gpio_rst))) in
  window regs
  = Some {| win_x0 := 0; win_y0 := 0; win_x1 := 239; win_y1 := 319 |} /\
  get_draw_image_size self = (239 - 0 + 1, 319 - 0 + 1) /\
  (regs !! 0x20 = Some 0 /\ regs !! 0x21 = Some 0) /\
  regs !! 0x07 = Some 0x0133 /\
  (regs !! 0x10 = Some 0x1490 /\ regs !! 0x11 = Some 0x0227 /\
   regs !! 0x12 = Some 0x001C /\ regs !! 0x13 = Some 0x1A00) /\
  size regs = 44%nat.
Proof.
  cbv zeta. rewrite construction_trace_of, init_ili9328_accesses.
  vm_compute. by repeat split.
Qed.

Lemma construct_then_draw_steady (x y : Z) (a : ndarray) :
  steady (construct_then_draw spibus spidevice hz gpio_cs gpio_rst x y a)
         622
         (trace_of (init_ili9328 self) ++ block_image_trace self x y a) tt.
Proof.
  unfold construct_then_draw.
  eapply steady_cast.
  - eapply steady_bind; [apply construction_steady | apply block_image_steady].
  - reflexivity.
  - reflexivity.
Qed.

(** X15.  Construction followed by a draw on the driver it returns makes
    622 calls to the operating system and returns exactly when none
    fails.  The controller then has received the 49 writes of the
    initialization, the six register writes of the draw and the pixel
    stream, in this order; its window is the window of the draw, and
    every register other than the six that [block_image] writes holds
    what the initialization put there. *)
Theorem construct_then_draw_state (x y : Z) (a : ndarray) (fs : list bool)
  (r : Z) :
  let session :=
    construct_then_draw spibus spidevice hz gpio_cs gpio_rst x y a in
  ((exists t fs', session fs = (t, fs', Ok tt))
   <-> has_fault 622 fs = false) /\
  accesses self (trace_of session) = init_registers ++ draw_accesses x y a /\
  window (regfile (accesses self (trace_of session)))
  = Some (drawn_window x y a) /\
  (r ∉ draw_registers ->
   regfile (accesses self (trace_of session)) !! r
   = regfile init_registers !! r).
Proof.
  cbv zeta.
  pose proof (construct_then_draw_steady x y a) as Hs.
  assert (Hacc : accesses self
                   (trace_of (init_ili9328 self) ++ block_image_trace self x y a)
                 = init_registers ++ draw_accesses x y a).
  { unfold accesses, frames. rewrite accesses_init_then.
    rewrite <- (app_nil_r (block_image_trace _ _ _ _)).
    by rewrite accesses_from_draw. }
  rewrite !(steady_trace_of _ _ _ _ Hs), Hacc.
  split; [| split; [reflexivity | split]].
  - split.
    + intros (t & fs' & Hrun).
      apply (steady_returns _ _ _ _ _ _ _ _ Hs Hrun).
    + intros Hfs. specialize (Hs fs). rewrite Hfs in Hs. eauto.
  - rewrite regfile_app. unfold draw_accesses, window.
    cbn [foldl store]. by simplify_map_eq.
  - intros Hr. unfold draw_registers in Hr.
    rewrite !not_elem_of_cons in Hr.
    destruct Hr as (H1 & H2 & H3 & H4 & H5 & H6 & _).
    rewrite regfile_app. unfold draw_accesses. cbn [foldl store].
    by rewrite !lookup_insert_ne by done.
Qed.

Lemma draw_twice_steady (x1 y1 : Z) (a1 : ndarray) (x2 y2 : Z)
  (a2 : ndarray) :
  steady (draw_twice self x1 y1 a1 x2 y2 a2) 154
         (block_image_trace self x1 y1 a1 ++ block_image_trace self x2 y2 a2)
         tt.
Proof.
  unfold draw_twice.
  eapply steady_cast.
  - eapply steady_bind; apply block_image_steady.
  - reflexivity.
  - reflexivity.
Qed.

(** X16.  Of two draws in a row the second decides the state of the
    controller: it receives the accesses of the first and then those of
    the second, and its registers end as if the second draw had been made
    alone; in particular the window is that of the second draw.  Drawing
    the same image at the same place twice leaves the registers as they
    were after the first time. *)
Theorem draw_twice_last_wins (x1 y1 : Z) (a1 : ndarray) (x2 y2 : Z)
  (a2 : ndarray) :
  accesses self (trace_of (draw_twice self x1 y1 a1 x2 y2 a2))
  = draw_accesses x1 y1 a1 ++ draw_accesses x2 y2 a2 /\
  regfile (accesses self (trace_of (draw_twice self x1 y1 a1 x2 y2 a2)))
  = regfile (accesses self (trace_of (block_image self x2 y2 a2))) /\
  window (regfile (accesses self
                     (trace_of (draw_twice self x1 y1 a1 x2 y2 a2))))
  = Some (drawn_window x2 y2 a2) /\
  regfile (accesses self (trace_of (draw_twice self x1 y1 a1 x1 y1 a1)))
  = regfile (accesses self (trace_of (block_image self x1 y1 a1))).
Proof.
  assert (Hacc : forall u v b u' v' b',
            accesses self (trace_of (draw_twice self u v b u' v' b'))
            = draw_accesses u v b ++ draw_accesses u' v' b').
  { intros. rewrite (steady_trace_of _ _ _ _ (draw_twice_steady _ _ _ _ _ _)).
    unfold accesses, frames. rewrite accesses_from_draw.
    rewrite <- (app_nil_r (block_image_trace _ _ _ _)).
    by rewrite accesses_from_draw. }
  assert (Hone : forall u v b,
            accesses self (trace_of (block_image self u v b))
            = draw_accesses u v b).
  { intros. rewrite block_image_trace_of. apply accesses_block_image. }
  assert (Hregs : forall u v b u' v' b',
            regfile (draw_accesses u v b ++ draw_accesses u' v' b')
            = regfile (draw_accesses u' v' b')).
  { intros. unfold regfile, draw_accesses. cbn [app foldl store].
    apply map_eq. intros i.
    repeat (rewrite lookup_insert; case_decide; [reflexivity |]).
    reflexivity. }
  rewrite !Hacc, !Hone, !Hregs.
  split; [reflexivity |]. split; [reflexivity |]. split; [| reflexivity].
  unfold regfile, draw_accesses, window. cbn [foldl store].
  by simplify_map_eq.
Qed.

End Sessions.

(** ** The reset line *)

Section Reset.

Variables spibus spidevice hz : Z.
Variables gpio_cs gpio_rst : string.

#[local] Abbreviation self := (attributes spibus spidevice hz gpio_cs gpio_rst).

Hypothesis lines_differ : gpio_rst <> gpio_cs.

Ltac reset_chain :=
  repeat first
    [ apply write_cmd_steady; unfold uint16; lia
    | apply steady_syscall
    | apply steady_emit
    | apply steady_ret
    | eapply steady_with_open
    | eapply steady_bind ].

Lemma line_writes_app (path : string) (t1 t2 : list event) :
  line_writes path (t1 ++ t2) = line_writes path t1 ++ line_writes path t2.
Proof. apply omap_app. Qed.

Lemma line_writes_sleep (path : string) (millis : Z) (t : list event) :
  line_writes path (Sleep millis :: t) = line_writes path t.
Proof. reflexivity. Qed.

Lemma line_writes_write_cmd (regaddr data16 : Z) :
  line_writes gpio_rst (write_cmd_trace self regaddr data16) = [].
Proof.
  unfold line_writes, write_cmd_trace. cbn.
  by rewrite !decide_False by congruence.
Qed.

Lemma line_writes_write_gram (bytes : list Z) :
  line_writes gpio_rst (write_gram_trace self bytes) = [].
Proof.
  unfold line_writes, write_gram_trace. cbn.
  by rewrite !decide_False by congruence.
Qed.

Lemma line_writes_block_image (x y : Z) (a : ndarray) :
  line_writes gpio_rst (block_image_trace self x y a) = [].
Proof.
  unfold block_image_trace. cbv zeta.
  by rewrite !line_writes_app, !line_writes_write_cmd, line_writes_write_gram.
Qed.

Lemma init_reset_shape :
  exists T T',
    steady (init_ili9328 self) 545 T tt /\
    T = reset_prologue gpio_cs gpio_rst ++ T' /\
    line_writes gpio_rst T' = [].
Proof.
  eexists. eexists. split; [| split].
  - unfold init_ili9328.
    eapply steady_cast; [reset_chain | reflexivity | reflexivity].
  - cbn [app]. reflexivity.
  - repeat first
      [ rewrite line_writes_app, line_writes_write_cmd
      | rewrite line_writes_write_cmd
      | rewrite line_writes_sleep ];
      cbn [app].
    reflexivity.
Qed.

(** X17.  When the reset line and the chip-select line are different
    files, the reset line is pulsed once and only by construction:
    construction starts by releasing chip-select, then writes inactive,
    active, inactive to the reset file with pauses of 10 ms, 10 ms and
    50 ms, all before its first SPI transfer; nothing is written to the
    reset file afterwards, neither by the rest of the initialization nor
    by a draw.  A complete construction sleeps 420 ms in all. *)
Theorem reset_pulsed_once (x y : Z) (a : ndarray) :
  (exists T',
     trace_of (construct_then_draw spibus spidevice hz gpio_cs gpio_rst x y a)
     = reset_prologue gpio_cs gpio_rst ++ T' /\
     line_writes gpio_rst T' = []) /\
  line_writes gpio_rst
    (trace_of (construct_then_draw spibus spidevice hz gpio_cs gpio_rst x y a))
  = ["1"; "0"; "1"] /\
  line_writes gpio_rst (trace_of (block_image self x y a)) = [] /\
  sleep_total (trace_of (__init__ spibus spidevice hz gpio_cs gpio_rst)) = 420.
Proof.
  destruct init_reset_shape as (T & T' & Hs & HT & Hquiet).
  pose proof (steady_trace_of _ _ _ _ Hs) as Hinit.
  rewrite (steady_trace_of _ _ _ _
             (construct_then_draw_steady _ _ _ _ _ x y a)).
  rewrite Hinit, HT, <- app_assoc.
  assert (Hpro : line_writes gpio_rst (reset_prologue gpio_cs gpio_rst)
                 = ["1"; "0"; "1"]).
  { unfold line_writes, reset_prologue. cbn.
    rewrite !(decide_True (P := gpio_rst = gpio_rst)) by reflexivity.
    by rewrite !(decide_False (P := gpio_cs = gpio_rst)) by congruence. }
  split; [| split; [| split]].
  - eexists. split; [reflexivity |].
    by rewrite line_writes_app, Hquiet, line_writes_block_image.
  - by rewrite !line_writes_app, Hpro, Hquiet, line_writes_block_image.
  - rewrite block_image_trace_of. apply line_writes_block_image.
  - vm_compute. reflexivity.
Qed.

End Reset.

(** ** The further properties at sample inputs *)

Lemma write_cmd_bad_address_witness :
  ~ uint16 (-1) /\
  (write_cmd default_self (-1) 0 []).2 = Raise OverflowError /\
  cs_level default_self "1" (trace_of (write_cmd default_self (-1) 0)) = "0".
Proof.
  assert (H : ~ uint16 (-1)) by (unfold uint16; lia).
  pose proof (write_cmd_bad_address default_self (-1) 0 "1" H)
    as (Hrun & Hcs & _).
  split; [exact H |]. split; [by rewrite Hrun | exact Hcs].
Defined.

Lemma write_cmd_bad_value_witness :
  uint16 0x50 /\ ~ uint16 70000 /\
  frames default_self (trace_of (write_cmd default_self 0x50 70000))
  = [[0x70; 0x00; 0x50]] /\
  accesses default_self (trace_of (write_cmd default_self 0x50 70000)) = [].
Proof.
  assert (Ha : uint16 0x50) by (unfold uint16; lia).
  assert (Hd : ~ uint16 70000) by (unfold uint16; lia).
  assert (Hl : PIN_ACTIVE default_self <> PIN_INACTIVE default_self)
    by discriminate.
  pose proof (write_cmd_bad_value default_self 0x50 70000 "1" Ha Hd Hl)
    as (_ & Hframes & Hacc & _).
  split; [exact Ha |]. split; [exact Hd |]. split; [exact Hframes | exact Hacc].
Defined.

Lemma write_cmd_failure_holds_select_witness :
  exists t,
    write_cmd default_self 0x50 239 (replicate 5 false ++ [true])
    = (t, [], Raise OSError) /\
    cs_level default_self "1" t = "0".
Proof.
  assert (Ha : uint16 0x50) by (unfold uint16; lia).
  assert (Hd : uint16 239) by (unfold uint16; lia).
  assert (Hl : PIN_ACTIVE default_self <> PIN_INACTIVE default_self)
    by discriminate.
  destruct (write_cmd_failure_holds_select default_self 0x50 239 5 [] "1"
              Ha Hd (or_introl eq_refl) Hl) as (t & Hrun & Hcs & _).
  exists t. split; [exact Hrun | exact Hcs].
Defined.

Lemma rgb565_is_big_endian_word_witness :
  ndarray_ok sample_2x2 /\
  map (map word_of) (Convert.rgb565 sample_2x2)
  = [[Some 0xFFFF; Some 0x0000]; [Some 0x0821; Some 0xCB26]].
Proof.
  split; [exact sample_2x2_ok |].
  rewrite (rgb565_is_big_endian_word sample_2x2 sample_2x2_ok). reflexivity.
Defined.

Lemma rgb565_equal_iff_truncations_equal_witness :
  ndarray_ok sample_1x3 /\
  ndarray_ok (NdArray 1 3 [[Rgb 0xF8 0xFC 0xFF; Rgb 7 3 7; Rgb 0x0F 0x07 0x08]]) /\
  Convert.rgb565 sample_1x3
  = Convert.rgb565
      (NdArray 1 3 [[Rgb 0xF8 0xFC 0xFF; Rgb 7 3 7; Rgb 0x0F 0x07 0x08]]).
Proof.
  assert (H1 : ndarray_ok sample_1x3).
  { split; [reflexivity |].
    repeat constructor; unfold byte_range; cbn; lia. }
  assert (H2 : ndarray_ok
                 (NdArray 1 3 [[Rgb 0xF8 0xFC 0xFF; Rgb 7 3 7;
                                Rgb 0x0F 0x07 0x08]])).
  { split; [reflexivity |].
    repeat constructor; unfold byte_range; cbn; lia. }
  split; [exact H1 |]. split; [exact H2 |].
  apply (proj2 (rgb565_equal_iff_truncations_equal _ _ H1 H2)). reflexivity.
Defined.

Lemma block_image_streams_whole_buffer_witness :
  ndarray_ok sample_2x2 /\
  exists regs data,
    accesses default_self
      (trace_of (block_image default_self 239 319 sample_2x2))
    = regs ++ [GramWrite data] /\
    length data = 8%nat.
Proof.
  split; [exact sample_2x2_ok |].
  destruct (block_image_streams_whole_buffer
              1 0 (500 * 1000) "/dev/null" "/dev/null" 239 319
              sample_2x2 sample_2x2_ok)
    as (regs & data & Hacc & _ & _ & Hlen).
  exists regs, data. split; [exact Hacc | exact Hlen].
Defined.

Lemma block_image_window_fits_witness :
  exists w,
    window (regfile (accesses default_self
              (trace_of (block_image default_self 220 (-3) (black 50 50)))))
    = Some w /\
    window_columns w <= 50 /\ window_rows w <= 50.
Proof.
  assert (H1 : (1 <= shape_width (black 50 50))%nat) by (cbn; lia).
  assert (H2 : (1 <= shape_height (black 50 50))%nat) by (cbn; lia).
  destruct (block_image_window_fits
              1 0 (500 * 1000) "/dev/null" "/dev/null" 220 (-3)
              (black 50 50) H1 H2)
    as (w & Hw & _ & _ & Hc & Hr & _).
  exists w. split; [exact Hw |]. split; [exact Hc | exact Hr].
Defined.

Lemma sample_no_columns_ok : ndarray_ok sample_no_columns.
Proof. split; [reflexivity |]. by repeat constructor. Defined.

Lemma block_image_empty_width_witness :
  ndarray_ok sample_no_columns /\
  List.last (frames default_self
               (trace_of (block_image default_self 10 10 sample_no_columns)))
            []
  = [0x72].
Proof.
  split; [exact sample_no_columns_ok |].
  assert (Hx : 1 <= 10) by lia.
  exact (proj2 (proj2
           (block_image_empty_width
              1 0 (500 * 1000) "/dev/null" "/dev/null" 10 10
              sample_no_columns sample_no_columns_ok eq_refl Hx))).
Defined.

Lemma reset_pulsed_once_witness :
  "/sys/class/gpio/gpio1023/value" <> "/sys/class/gpio/gpio1022/value" /\
  line_writes "/sys/class/gpio/gpio1023/value"
    (trace_of
       (construct_then_draw 1 0 (1 * 1000 * 1000)
          "/sys/class/gpio/gpio1022/value" "/sys/class/gpio/gpio1023/value"
          20 100 (black 200 150)))
  = ["1"; "0"; "1"].
Proof.
  assert (H : "/sys/class/gpio/gpio1023/value"
              <> "/sys/class/gpio/gpio1022/value") by discriminate.
  split; [exact H |].
  exact (proj1 (proj2
           (reset_pulsed_once 1 0 (1 * 1000 * 1000)
              "/sys/class/gpio/gpio1022/value" "/sys/class/gpio/gpio1023/value"
              H 20 100 (black 200 150)))).
Defined.
